(** * Confidential transaction demo (bin/daod/demo/tx.py)

    A shallow embedding of the transaction builder, the transaction verifier
    and the mint / burn proof objects of [tx.py], together with the
    properties of the builder and of the verification gates.

    Python integers are [Z]; curve points are the 3-tuples the code indexes
    ([v[0]], [v[1]], [v[2]]) and compares with [(0, 1, 0)]; byte strings are
    [list Byte.byte]; the coin set [all_coins] is a list of field elements
    on which the code only uses [in] and [==].

    The modules [crypto] and the curve object [ec] are imported by [tx.py]
    but are not part of it: they are parameters of the development, and
    the algebraic contract they obey is stated as a record of laws. *)

From Stdlib Require Import ZArith List String Bool Lia.
From Stdlib.Strings Require Import Byte.
Import ListNotations.
Open Scope Z_scope.

(** ** Python values and control flow *)

Definition Point : Type := (Z * Z * Z)%type.

Definition point_eqb (P Q : Point) : bool :=
  let '(x1, y1, z1) := P in
  let '(x2, y2, z2) := Q in
  (x1 =? x2) && (y1 =? y2) && (z1 =? z2).

Definition bytes := list byte.

Fixpoint coins_eqb (a b : list Z) : bool :=
  match a, b with
  | [], [] => true
  | x :: a', y :: b' => (x =? y) && coins_eqb a' b'
  | _, _ => false
  end.

(** [coin in all_coins] *)
Definition coin_in (coin : Z) (all_coins : list Z) : bool :=
  existsb (Z.eqb coin) all_coins.

(** Python's builtin [sum]: starts from 0 and adds left to right. *)
Definition sum (l : list Z) : Z := fold_left Z.add l 0.

Inductive pyexn : Type :=
| AssertionError
| ZeroDivisionError
| AttributeError.

Inductive outcome (A : Type) : Type :=
| Return (a : A)
| Raise (e : pyexn).
Arguments Return {A} a.
Arguments Raise {A} e.

(** What a call of [Transaction.verify] can produce: a 2-tuple, a bare
    boolean, or an exception. *)
Inductive verify_result : Type :=
| RetTuple (ok : bool) (reason : option string)
| RetBool (b : bool)
| Raised (e : pyexn).

(** The curve adapter [ec]; its sampling methods thread a generator state. *)
Record Curve (Rng : Type) : Type := {
  ec_p : Z;
  ec_order : Z;
  ec_G : Point;
  ec_add : Point -> Point -> Point;
  ec_multiply : Z -> Point -> Point;
  ec_random_scalar : Rng -> Z * Rng;
  ec_random_base : Rng -> Z * Rng
}.
Arguments ec_p {Rng} c.
Arguments ec_order {Rng} c.
Arguments ec_G {Rng} c.
Arguments ec_add {Rng} c _ _.
Arguments ec_multiply {Rng} c _ _.
Arguments ec_random_scalar {Rng} c _.
Arguments ec_random_base {Rng} c _.

(** The functions [tx.py] imports from [crypto]. [ff_hash] is variadic: its
    first argument is kept apart, the others are a list. *)
Record Crypto (Rng Sig : Type) : Type := {
  ff_hash : Z -> list Z -> Z;
  pedersen_encrypt : Z -> Z -> Curve Rng -> Point;
  sign : bytes -> Z -> Curve Rng -> Rng -> Sig * Rng;
  verify : bytes -> Sig -> Point -> Curve Rng -> bool
}.
Arguments ff_hash {Rng Sig} c _ _.
Arguments pedersen_encrypt {Rng Sig} c _ _ _.
Arguments sign {Rng Sig} c _ _ _ _.
Arguments verify {Rng Sig} c _ _ _ _.

(** ** Data model *)

Record Note : Type := {
  n_serial : Z;
  n_value : Z;
  n_token_id : Z;
  n_coin_blind : Z;
  n_value_blind : Z;
  n_token_blind : Z;
  n_depends : Z;
  n_attrs : Z
}.

(** Builder specs, as stored by [add_clear_input], [add_input], [add_output]. *)
Record ClearInputSpec : Type := {
  cs_value : Z;
  cs_token_id : Z;
  cs_signature_secret : Z
}.

Record InputSpec : Type := {
  is_all_coins : list Z;
  is_secret : Z;
  is_note : Note
}.

Record OutputSpec : Type := {
  os_value : Z;
  os_token_id : Z;
  os_public : Point;
  os_depends : Z;
  os_attrs : Z
}.

Record TransactionBuilder : Type := {
  b_clear_inputs : list ClearInputSpec;
  b_inputs : list InputSpec;
  b_outputs : list OutputSpec
}.

Definition TransactionBuilder_init : TransactionBuilder :=
  {| b_clear_inputs := []; b_inputs := []; b_outputs := [] |}.

Definition add_clear_input (b : TransactionBuilder)
    (value token_id signature_secret : Z) : TransactionBuilder :=
  let clear_input := {| cs_value := value; cs_token_id := token_id;
                        cs_signature_secret := signature_secret |} in
  {| b_clear_inputs := b_clear_inputs b ++ [clear_input];
     b_inputs := b_inputs b;
     b_outputs := b_outputs b |}.

Definition add_input (b : TransactionBuilder)
    (all_coins : list Z) (secret : Z) (note : Note) : TransactionBuilder :=
  let input := {| is_all_coins := all_coins; is_secret := secret;
                  is_note := note |} in
  {| b_clear_inputs := b_clear_inputs b;
     b_inputs := b_inputs b ++ [input];
     b_outputs := b_outputs b |}.

Definition add_output (b : TransactionBuilder)
    (value token_id : Z) (public : Point) (depends attrs : Z)
    : TransactionBuilder :=
  let output := {| os_value := value; os_token_id := token_id;
                   os_public := public; os_depends := depends;
                   os_attrs := attrs |} in
  {| b_clear_inputs := b_clear_inputs b;
     b_inputs := b_inputs b;
     b_outputs := b_outputs b ++ [output] |}.

Record BurnProof : Type := {
  bp_value : Z;
  bp_token_id : Z;
  bp_value_blind : Z;
  bp_token_blind : Z;
  bp_serial : Z;
  bp_coin_blind : Z;
  bp_secret : Z;
  bp_depends : Z;
  bp_attrs : Z;
  bp_all_coins : list Z;
  bp_signature_secret : Z
}.

Record BurnRevealed : Type := {
  br_nullifier : Z;
  br_value_commit : Point;
  br_token_commit : Point;
  br_all_coins : list Z;
  br_signature_public : Point
}.

Record MintProof : Type := {
  mp_value : Z;
  mp_token_id : Z;
  mp_value_blind : Z;
  mp_token_blind : Z;
  mp_serial : Z;
  mp_coin_blind : Z;
  mp_public : Point;
  mp_depends : Z;
  mp_attrs : Z
}.

Record MintRevealed : Type := {
  mr_coin : Z;
  mr_value_commit : Point;
  mr_token_commit : Point
}.

Section Tx.

Variables Rng Sig : Type.
Variable ec : Curve Rng.
Variable crypto : Crypto Rng Sig.

(** Transaction members. The [signature] attribute is only set by the
    signing loops at the end of [build]: it is absent ([None]) before. *)
Record TxClearInput : Type := {
  ci_value : Z;
  ci_token_id : Z;
  ci_value_blind : Z;
  ci_token_blind : Z;
  ci_signature_public : Point;
  ci_signature : option Sig
}.

Record TxInput : Type := {
  ti_burn_proof : BurnProof;
  ti_revealed : BurnRevealed;
  ti_signature : option Sig
}.

Record TxOutput : Type := {
  to_mint_proof : MintProof;
  to_revealed : MintRevealed;
  to_enc_note : Note
}.

Record Transaction : Type := {
  tx_clear_inputs : list TxClearInput;
  tx_inputs : list TxInput;
  tx_outputs : list TxOutput
}.

(** ** BurnProof *)

Definition BurnProof_get_revealed (self : BurnProof) : BurnRevealed :=
  {| br_nullifier := ff_hash crypto (bp_secret self) [bp_serial self];
     br_value_commit :=
       pedersen_encrypt crypto (bp_value self) (bp_value_blind self) ec;
     br_token_commit :=
       pedersen_encrypt crypto (bp_token_id self) (bp_token_blind self) ec;
     br_all_coins := bp_all_coins self;
     br_signature_public :=
       ec_multiply ec (bp_signature_secret self) (ec_G ec) |}.

(** The coin recomputed inside [BurnProof.verify]. *)
Definition BurnProof_coin (self : BurnProof) : Z :=
  let public_key := ec_multiply ec (bp_secret self) (ec_G ec) in
  let '(pk0, pk1, _) := public_key in
  ff_hash crypto (ec_p ec)
    [pk0; pk1; bp_value self; bp_token_id self; bp_serial self;
     bp_coin_blind self; bp_depends self; bp_attrs self].

(** The list handed to [all] at the end of [BurnProof.verify]. *)
Definition BurnProof_comparisons (revealed public : BurnRevealed)
    : list bool :=
  [ br_nullifier revealed =? br_nullifier public;
    point_eqb (br_value_commit revealed) (br_value_commit public);
    point_eqb (br_token_commit revealed) (br_token_commit public);
    coins_eqb (br_all_coins revealed) (br_all_coins public);
    point_eqb (br_signature_public revealed) (br_signature_public public) ].

Definition BurnProof_verify (self : BurnProof) (public : BurnRevealed)
    : bool :=
  let revealed := BurnProof_get_revealed self in
  let coin := BurnProof_coin self in
  if negb (coin_in coin (bp_all_coins self)) then false
  else forallb (fun b => b) (BurnProof_comparisons revealed public).

(** ** MintProof *)

Definition MintProof_get_revealed (self : MintProof) : MintRevealed :=
  let '(public0, public1, _) := mp_public self in
  {| mr_coin :=
       ff_hash crypto (ec_p ec)
         [public0; public1; mp_value self; mp_token_id self;
          mp_serial self; mp_coin_blind self; mp_depends self;
          mp_attrs self];
     mr_value_commit :=
       pedersen_encrypt crypto (mp_value self) (mp_value_blind self) ec;
     mr_token_commit :=
       pedersen_encrypt crypto (mp_token_id self) (mp_token_blind self) ec |}.

Definition MintProof_verify (self : MintProof) (public : MintRevealed)
    : bool :=
  let revealed := MintProof_get_revealed self in
  forallb (fun b => b)
    [ mr_coin revealed =? mr_coin public;
      point_eqb (mr_value_commit revealed) (mr_value_commit public);
      point_eqb (mr_token_commit revealed) (mr_token_commit public) ].

(** ** Transaction *)

Definition partial_encode (self : Transaction) : bytes :=
  [x68; x65; x6c; x6c; x6f]%byte.

(** [(v[0], -v[1], v[2])] *)
Definition negate_y (v : Point) : Point :=
  let '(v0, v1, v2) := v in (v0, - v1, v2).

Definition Transaction_check_value_commits (self : Transaction) : bool :=
  let valcom_total : Point := (0, 1, 0) in
  let valcom_total :=
    fold_left (fun total input =>
                 let value_commit :=
                   pedersen_encrypt crypto (ci_value input)
                                    (ci_value_blind input) ec in
                 ec_add ec total value_commit)
              (tx_clear_inputs self) valcom_total in
  let valcom_total :=
    fold_left (fun total input =>
                 let value_commit := br_value_commit (ti_revealed input) in
                 ec_add ec total value_commit)
              (tx_inputs self) valcom_total in
  let valcom_total :=
    fold_left (fun total output =>
                 let v := mr_value_commit (to_revealed output) in
                 let value_commit := negate_y v in
                 ec_add ec total value_commit)
              (tx_outputs self) valcom_total in
  point_eqb valcom_total (0, 1, 0).

Definition Transaction_check_proofs (self : Transaction) : bool :=
  forallb (fun input =>
             BurnProof_verify (ti_burn_proof input) (ti_revealed input))
          (tx_inputs self)
  && forallb (fun output =>
                MintProof_verify (to_mint_proof output) (to_revealed output))
             (tx_outputs self).

Definition Transaction_verify_token_commitments (self : Transaction)
    : outcome bool :=
  match tx_outputs self with
  | [] => Raise AssertionError
  | output0 :: _ =>
      let token_commit_value := mr_token_commit (to_revealed output0) in
      Return
        (forallb (fun input =>
                    let token_commit :=
                      pedersen_encrypt crypto (ci_token_id input)
                                       (ci_token_blind input) ec in
                    point_eqb token_commit token_commit_value)
                 (tx_clear_inputs self)
         && forallb (fun input =>
                       point_eqb (br_token_commit (ti_revealed input))
                                 token_commit_value)
                    (tx_inputs self)
         && forallb (fun output =>
                       point_eqb (mr_token_commit (to_revealed output))
                                 token_commit_value)
                    (tx_outputs self))
  end.

(** The two signature loops of [verify]: [Return false] stands for the
    early [return False], [Return true] for falling out of the loop. *)
Fixpoint verify_clear_signatures (unsigned_tx_data : bytes)
    (inputs : list TxClearInput) : outcome bool :=
  match inputs with
  | [] => Return true
  | input :: rest =>
      let public := ci_signature_public input in
      match ci_signature input with
      | None => Raise AttributeError
      | Some signature =>
          if negb (verify crypto unsigned_tx_data signature public ec)
          then Return false
          else verify_clear_signatures unsigned_tx_data rest
      end
  end.

Fixpoint verify_input_signatures (unsigned_tx_data : bytes)
    (inputs : list TxInput) : outcome bool :=
  match inputs with
  | [] => Return true
  | input :: rest =>
      let public := br_signature_public (ti_revealed input) in
      match ti_signature input with
      | None => Raise AttributeError
      | Some signature =>
          if negb (verify crypto unsigned_tx_data signature public ec)
          then Return false
          else verify_input_signatures unsigned_tx_data rest
      end
  end.

Definition Transaction_verify (self : Transaction) : verify_result :=
  if negb (Transaction_check_value_commits self) then
    RetTuple false (Some "value commits do not match"%string)
  else if negb (Transaction_check_proofs self) then
    RetTuple false (Some "proofs failed to verify"%string)
  else
    match Transaction_verify_token_commitments self with
    | Raise e => Raised e
    | Return false => RetTuple false (Some "token ID mismatch"%string)
    | Return true =>
        let unsigned_tx_data := partial_encode self in
        match verify_clear_signatures unsigned_tx_data
                (tx_clear_inputs self) with
        | Raise e => Raised e
        | Return false => RetBool false
        | Return true =>
            match verify_input_signatures unsigned_tx_data
                    (tx_inputs self) with
            | Raise e => Raised e
            | Return false => RetBool false
            | Return true => RetTuple true None
            end
        end
    end.

(** ** TransactionBuilder

    [build] draws from the generator of [ec] and can raise: its steps live
    in a state-and-exception monad over the generator state. *)

Definition M (A : Type) : Type := Rng -> outcome A * Rng.

Definition ret {A} (a : A) : M A := fun rng => (Return a, rng).

Definition bind {A B} (m : M A) (k : A -> M B) : M B :=
  fun rng =>
    match m rng with
    | (Return a, rng') => k a rng'
    | (Raise e, rng') => (Raise e, rng')
    end.

Notation "x <- m ;; k" := (bind m (fun x => k))
  (at level 61, m at next level, right associativity).
Notation "m ;;; k" := (bind m (fun _ => k))
  (at level 61, right associativity).

Definition raise {A} (e : pyexn) : M A := fun rng => (Raise e, rng).

Definition lift {A} (o : outcome A) : M A := fun rng => (o, rng).

Definition py_assert (b : bool) : M unit :=
  if b then ret tt else raise AssertionError.

Definition random_scalar : M Z :=
  fun rng => let (x, rng') := ec_random_scalar ec rng in (Return x, rng').

Definition random_base : M Z :=
  fun rng => let (x, rng') := ec_random_base ec rng in (Return x, rng').

Definition do_sign (message : bytes) (secret : Z) : M Sig :=
  fun rng => let (s, rng') := sign crypto message secret ec rng in
             (Return s, rng').

(** Python's [%] on integers: floor division remainder, an exception on a
    zero modulus. *)
Definition py_mod (a b : Z) : outcome Z :=
  if b =? 0 then Raise ZeroDivisionError else Return (a mod b).

Definition compute_remainder_blind (clear_inputs : list TxClearInput)
    (input_blinds output_blinds : list Z) : outcome Z :=
  let total := 0 in
  let total := total + sum (map ci_value_blind clear_inputs) in
  let total := total + sum input_blinds in
  let total := total - sum output_blinds in
  py_mod total (ec_order ec).

(** First loop of [build]: [tx.clear_inputs.append(tx_clear_input)]. *)
Fixpoint build_clear_inputs (token_blind : Z) (specs : list ClearInputSpec)
    (tx_clear_inputs : list TxClearInput) : M (list TxClearInput) :=
  match specs with
  | [] => ret tx_clear_inputs
  | input :: rest =>
      value_blind <- random_scalar ;;
      let tx_clear_input :=
        {| ci_value := cs_value input;
           ci_token_id := cs_token_id input;
           ci_value_blind := value_blind;
           ci_token_blind := token_blind;
           ci_signature_public :=
             ec_multiply ec (cs_signature_secret input) (ec_G ec);
           ci_signature := None |} in
      build_clear_inputs token_blind rest
        (tx_clear_inputs ++ [tx_clear_input])
  end.

(** Second loop: the shielded inputs, with the lists [input_blinds] and
    [signature_secrets] it fills. *)
Fixpoint build_inputs (token_blind : Z) (specs : list InputSpec)
    (input_blinds signature_secrets : list Z) (tx_inputs : list TxInput)
    : M (list Z * list Z * list TxInput) :=
  match specs with
  | [] => ret (input_blinds, signature_secrets, tx_inputs)
  | input :: rest =>
      let input_blinds :=
        input_blinds ++ [n_value_blind (is_note input)] in
      signature_secret <- random_scalar ;;
      let signature_secrets := signature_secrets ++ [signature_secret] in
      let burn_proof :=
        {| bp_value := n_value (is_note input);
           bp_token_id := n_token_id (is_note input);
           bp_value_blind := n_value_blind (is_note input);
           bp_token_blind := token_blind;
           bp_serial := n_serial (is_note input);
           bp_coin_blind := n_coin_blind (is_note input);
           bp_secret := is_secret input;
           bp_depends := n_depends (is_note input);
           bp_attrs := n_attrs (is_note input);
           bp_all_coins := is_all_coins input;
           bp_signature_secret := signature_secret |} in
      let tx_input :=
        {| ti_burn_proof := burn_proof;
           ti_revealed := BurnProof_get_revealed burn_proof;
           ti_signature := None |} in
      build_inputs token_blind rest input_blinds signature_secrets
        (tx_inputs ++ [tx_input])
  end.

(** Third loop, [for i, output in enumerate(self.outputs)]; [len_outputs]
    is [len(self.outputs)], [i] the index of the head of [specs]. *)
Fixpoint build_outputs (token_blind : Z) (len_outputs : nat)
    (clear_inputs : list TxClearInput) (input_blinds : list Z)
    (i : nat) (specs : list OutputSpec)
    (output_blinds : list Z) (tx_outputs : list TxOutput)
    : M (list TxOutput) :=
  match specs with
  | [] => ret tx_outputs
  | output :: rest =>
      value_blind <-
        (if Nat.eqb i (len_outputs - 1)
         then lift (compute_remainder_blind clear_inputs input_blinds
                                            output_blinds)
         else random_scalar) ;;
      let output_blinds := output_blinds ++ [value_blind] in
      serial <- random_base ;;
      coin_blind <- random_base ;;
      let note :=
        {| n_serial := serial;
           n_value := os_value output;
           n_token_id := os_token_id output;
           n_coin_blind := coin_blind;
           n_value_blind := value_blind;
           n_token_blind := token_blind;
           n_depends := os_depends output;
           n_attrs := os_attrs output |} in
      let mint_proof :=
        {| mp_value := n_value note;
           mp_token_id := n_token_id note;
           mp_value_blind := n_value_blind note;
           mp_token_blind := n_token_blind note;
           mp_serial := n_serial note;
           mp_coin_blind := n_coin_blind note;
           mp_public := os_public output;
           mp_depends := os_depends output;
           mp_attrs := os_attrs output |} in
      let revealed := MintProof_get_revealed mint_proof in
      py_assert (MintProof_verify mint_proof revealed) ;;;
      let tx_output :=
        {| to_mint_proof := mint_proof;
           to_revealed := revealed;
           to_enc_note := note |} in
      build_outputs token_blind len_outputs clear_inputs input_blinds
        (S i) rest output_blinds (tx_outputs ++ [tx_output])
  end.

(** [input.signature = signature] on the members of [tx]. *)
Definition set_clear_signature (input : TxClearInput) (signature : Sig)
    : TxClearInput :=
  {| ci_value := ci_value input;
     ci_token_id := ci_token_id input;
     ci_value_blind := ci_value_blind input;
     ci_token_blind := ci_token_blind input;
     ci_signature_public := ci_signature_public input;
     ci_signature := Some signature |}.

Definition set_input_signature (input : TxInput) (signature : Sig)
    : TxInput :=
  {| ti_burn_proof := ti_burn_proof input;
     ti_revealed := ti_revealed input;
     ti_signature := Some signature |}.

(** [for (input, info) in zip(tx.clear_inputs, self.clear_inputs)]: the
    members past the shorter list are left as they are. *)
Fixpoint sign_clear_inputs (unsigned_tx_data : bytes)
    (inputs : list TxClearInput) (infos : list ClearInputSpec)
    : M (list TxClearInput) :=
  match inputs, infos with
  | input :: inputs', info :: infos' =>
      let secret := cs_signature_secret info in
      signature <- do_sign unsigned_tx_data secret ;;
      rest <- sign_clear_inputs unsigned_tx_data inputs' infos' ;;
      ret (set_clear_signature input signature :: rest)
  | _, _ => ret inputs
  end.

(** [for (input, signature_secret) in zip(tx.inputs, signature_secrets)] *)
Fixpoint sign_inputs (unsigned_tx_data : bytes)
    (inputs : list TxInput) (signature_secrets : list Z)
    : M (list TxInput) :=
  match inputs, signature_secrets with
  | input :: inputs', signature_secret :: secrets' =>
      signature <- do_sign unsigned_tx_data signature_secret ;;
      rest <- sign_inputs unsigned_tx_data inputs' secrets' ;;
      ret (set_input_signature input signature :: rest)
  | _, _ => ret inputs
  end.

Definition build (self : TransactionBuilder) : M Transaction :=
  token_blind <- random_scalar ;;
  clear_inputs <- build_clear_inputs token_blind (b_clear_inputs self) [] ;;
  r <- build_inputs token_blind (b_inputs self) [] [] [] ;;
  let '(input_blinds, signature_secrets, inputs) := r in
  py_assert (negb (Nat.eqb (List.length (b_outputs self)) 0)) ;;;
  outputs <- build_outputs token_blind (List.length (b_outputs self))
               clear_inputs input_blinds 0%nat (b_outputs self) [] [] ;;
  let tx := {| tx_clear_inputs := clear_inputs;
               tx_inputs := inputs;
               tx_outputs := outputs |} in
  let unsigned_tx_data := partial_encode tx in
  clear_inputs <- sign_clear_inputs unsigned_tx_data clear_inputs
                    (b_clear_inputs self) ;;
  inputs <- sign_inputs unsigned_tx_data inputs signature_secrets ;;
  ret {| tx_clear_inputs := clear_inputs;
         tx_inputs := inputs;
         tx_outputs := outputs |}.
End Tx.

Arguments Transaction_verify {Rng Sig} ec crypto self.
Arguments Transaction_check_value_commits {Rng Sig} ec crypto self.
Arguments Transaction_check_proofs {Rng Sig} ec crypto self.
Arguments Transaction_verify_token_commitments {Rng Sig} ec crypto self.
Arguments verify_clear_signatures {Rng Sig} ec crypto _ _.
Arguments verify_input_signatures {Rng Sig} ec crypto _ _.
Arguments partial_encode {Sig} self.
Arguments BurnProof_get_revealed {Rng Sig} ec crypto self.
Arguments BurnProof_coin {Rng Sig} ec crypto self.
Arguments BurnProof_verify {Rng Sig} ec crypto self public.
Arguments MintProof_get_revealed {Rng Sig} ec crypto self.
Arguments MintProof_verify {Rng Sig} ec crypto self public.
Arguments build {Rng Sig} ec crypto self _.
Arguments build_clear_inputs {Rng Sig} ec _ _ _ _.
Arguments build_inputs {Rng Sig} ec crypto _ _ _ _ _ _.
Arguments build_outputs {Rng Sig} ec crypto _ _ _ _ _ _ _ _ _.
Arguments sign_clear_inputs {Rng Sig} ec crypto _ _ _ _.
Arguments sign_inputs {Rng Sig} ec crypto _ _ _ _.
Arguments compute_remainder_blind {Rng Sig} ec _ _ _.
Arguments set_clear_signature {Sig} _ _.
Arguments set_input_signature {Sig} _ _.
Arguments ci_value {Sig} _.
Arguments ci_token_id {Sig} _.
Arguments ci_value_blind {Sig} _.
Arguments ci_token_blind {Sig} _.
Arguments ci_signature_public {Sig} _.
Arguments ci_signature {Sig} _.
Arguments ti_burn_proof {Sig} _.
Arguments ti_revealed {Sig} _.
Arguments ti_signature {Sig} _.
Arguments tx_clear_inputs {Sig} _.
Arguments tx_inputs {Sig} _.
Arguments tx_outputs {Sig} _.

(** ** The contract of the external collaborators

    What the builder and the verifier rely on from [ec] and [crypto]:
    Pedersen commitments add up, [(x, -y, z)] is the additive inverse, the
    blind acts modulo the scalar-field order, and a signature made with a
    secret verifies under the matching public key. *)

Record CommitLaws {Rng Sig} (ec : Curve Rng) (crypto : Crypto Rng Sig)
    : Prop := {
  order_nonzero : ec_order ec <> 0;
  commit_zero : pedersen_encrypt crypto 0 0 ec = (0, 1, 0);
  commit_add : forall a x b y,
    ec_add ec (pedersen_encrypt crypto a x ec) (pedersen_encrypt crypto b y ec)
    = pedersen_encrypt crypto (a + b) (x + y) ec;
  commit_sub : forall a x b y,
    ec_add ec (pedersen_encrypt crypto a x ec)
              (negate_y (pedersen_encrypt crypto b y ec))
    = pedersen_encrypt crypto (a - b) (x - y) ec;
  commit_blind_mod : forall a x,
    pedersen_encrypt crypto a (x mod ec_order ec) ec
    = pedersen_encrypt crypto a x ec
}.

Definition SignatureLaw {Rng Sig} (ec : Curve Rng) (crypto : Crypto Rng Sig)
    : Prop :=
  forall message secret rng,
    verify crypto message (fst (sign crypto message secret ec rng))
           (ec_multiply ec secret (ec_G ec)) ec = true.

(** ** Generator states reached during [build] *)

Section Draws.

Variables (Rng : Type) (ec : Curve Rng).

(** State after [n] calls of [ec.random_scalar()]. *)
Definition after_scalars (n : nat) (rng : Rng) : Rng :=
  Nat.iter n (fun r => snd (ec_random_scalar ec r)) rng.

(** One turn of the output loop on a non-last output: the value blind, the
    serial, the coin blind. *)
Definition output_draws (rng : Rng) : Rng :=
  snd (ec_random_base ec (snd (ec_random_base ec
    (snd (ec_random_scalar ec rng))))).

(** State when the output loop of [build] starts: the token blind, one
    value blind per clear input, one signature secret per shielded input. *)
Definition rng_at_outputs (self : TransactionBuilder) (rng : Rng) : Rng :=
  after_scalars (1 + List.length (b_clear_inputs self)
                   + List.length (b_inputs self)) rng.

(** The scalars sampled for the first [m] outputs, none of them last. *)
Definition fresh_blinds (rng : Rng) (m : nat) : list Z :=
  map (fun j => fst (ec_random_scalar ec (Nat.iter j output_draws rng)))
      (seq 0 m).

End Draws.
Arguments after_scalars {Rng} ec n rng.
Arguments output_draws {Rng} ec rng.
Arguments rng_at_outputs {Rng} ec self rng.
Arguments fresh_blinds {Rng} ec rng m.

(** ** A small instance of the collaborators

    The curve [y^2 = x^3 + 3] over the field of 7 elements: 13 points, all
    multiples of [(1, 2)].  Points are kept normalised, [(x, y, 1)] or
    [(0, 1, 0)].  Signatures are Schnorr signatures on that curve. *)

Module Toy.

Definition p : Z := 7.
Definition order : Z := 13.

Definition inv (a : Z) : Z := (a ^ (p - 2)) mod p.

Definition normalise (P : Point) : Point :=
  let '(x, y, z) := P in
  if z mod p =? 0 then (0, 1, 0)
  else ((x * inv z) mod p, (y * inv z) mod p, 1).

Definition add (P Q : Point) : Point :=
  let '(x1, y1, z1) := normalise P in
  let '(x2, y2, z2) := normalise Q in
  if z1 =? 0 then (x2, y2, z2)
  else if z2 =? 0 then (x1, y1, z1)
  else if (x1 =? x2) && ((y1 + y2) mod p =? 0) then (0, 1, 0)
  else
    let lam := if x1 =? x2
               then (3 * x1 * x1 * inv (2 * y1)) mod p
               else ((y2 - y1) * inv (x2 - x1)) mod p in
    let x3 := (lam * lam - x1 - x2) mod p in
    let y3 := (lam * (x1 - x3) - y1) mod p in
    (x3, y3, 1).

Definition multiply (m : Z) (P : Point) : Point :=
  Nat.iter (Z.to_nat (m mod order)) (add P) (0, 1, 0).

Definition G : Point := (1, 2, 1).
Definition H : Point := multiply 5 G.

(** A linear congruential generator. *)
Definition next (s : Z) : Z := (1103515245 * s + 12345) mod 2147483648.
Definition random_scalar (s : Z) : Z * Z := (next s mod order, next s).
Definition random_base (s : Z) : Z * Z := (next s mod p, next s).

Definition curve : Curve Z :=
  {| ec_p := p; ec_order := order; ec_G := G;
     ec_add := add; ec_multiply := multiply;
     ec_random_scalar := random_scalar;
     ec_random_base := random_base |}.

Definition ff_hash (m : Z) (args : list Z) : Z :=
  fold_left (fun h a => (31 * h + a + 1) mod (m * m + 1)) args 7 mod m.

Definition pedersen_encrypt (x y : Z) (ec : Curve Z) : Point :=
  let vcv := ec_multiply ec x (ec_G ec) in
  let vcr := ec_multiply ec y H in
  ec_add ec vcv vcr.

Definition Signature : Type := (Point * Z)%type.

Definition challenge (message : bytes) (R : Point) : Z :=
  let '(x, y, _) := R in
  ff_hash order (x :: y :: map (fun b => Z.of_N (Byte.to_N b)) message).

Definition sign (message : bytes) (secret : Z) (ec : Curve Z) (rng : Z)
    : Signature * Z :=
  let (k, rng') := ec_random_scalar ec rng in
  let R := ec_multiply ec k (ec_G ec) in
  let e := challenge message R in
  ((R, (k + e * secret) mod ec_order ec), rng').

Definition verify (message : bytes) (sg : Signature) (public : Point)
    (ec : Curve Z) : bool :=
  let '(R, s) := sg in
  let e := challenge message R in
  point_eqb (ec_multiply ec s (ec_G ec))
            (ec_add ec R (ec_multiply ec e public)).

Definition crypto : Crypto Z Signature :=
  Build_Crypto Z Signature ff_hash pedersen_encrypt sign verify.

(** The multiples of [G], in order: [point i] is [i * G]. *)
Definition points : list Point :=
  Eval vm_compute in map (fun i => multiply (Z.of_nat i) G) (seq 0 13).

Definition point (i : Z) : Point :=
  nth (Z.to_nat (i mod order)) points (0, 1, 0).

End Toy.

(** ** Shapes of what [build] puts in a transaction *)

Section Built.

Variables (Rng Sig : Type) (ec : Curve Rng) (crypto : Crypto Rng Sig).

(** The witness handed to [BurnProof(...)] in the shielded-input loop. *)
Definition burn_proof_of (token_blind : Z) (input : InputSpec)
    (signature_secret : Z) : BurnProof :=
  {| bp_value := n_value (is_note input);
     bp_token_id := n_token_id (is_note input);
     bp_value_blind := n_value_blind (is_note input);
     bp_token_blind := token_blind;
     bp_serial := n_serial (is_note input);
     bp_coin_blind := n_coin_blind (is_note input);
     bp_secret := is_secret input;
     bp_depends := n_depends (is_note input);
     bp_attrs := n_attrs (is_note input);
     bp_all_coins := is_all_coins input;
     bp_signature_secret := signature_secret |}.

(** The note of an output and the witness handed to [MintProof(...)]. *)
Definition note_of (token_blind : Z) (output : OutputSpec)
    (value_blind serial coin_blind : Z) : Note :=
  {| n_serial := serial;
     n_value := os_value output;
     n_token_id := os_token_id output;
     n_coin_blind := coin_blind;
     n_value_blind := value_blind;
     n_token_blind := token_blind;
     n_depends := os_depends output;
     n_attrs := os_attrs output |}.

Definition mint_proof_of (token_blind : Z) (output : OutputSpec)
    (value_blind serial coin_blind : Z) : MintProof :=
  {| mp_value := os_value output;
     mp_token_id := os_token_id output;
     mp_value_blind := value_blind;
     mp_token_blind := token_blind;
     mp_serial := serial;
     mp_coin_blind := coin_blind;
     mp_public := os_public output;
     mp_depends := os_depends output;
     mp_attrs := os_attrs output |}.

(** The coin of a note held under [secret]:
    [ff_hash(p, pk.x, pk.y, value, token_id, serial, coin_blind, depends,
    attrs)] with [pk = secret * G]. *)
Definition note_coin (secret : Z) (note : Note) : Z :=
  let '(pk0, pk1, _) := ec_multiply ec secret (ec_G ec) in
  ff_hash crypto (ec_p ec)
    [pk0; pk1; n_value note; n_token_id note; n_serial note;
     n_coin_blind note; n_depends note; n_attrs note].

(** The member appended to [tx.outputs] for one output. *)
Definition tx_output_of (token_blind : Z) (output : OutputSpec)
    (value_blind serial coin_blind : Z) : TxOutput :=
  let mint_proof :=
    mint_proof_of token_blind output value_blind serial coin_blind in
  {| to_mint_proof := mint_proof;
     to_revealed := MintProof_get_revealed ec crypto mint_proof;
     to_enc_note :=
       note_of token_blind output value_blind serial coin_blind |}.

Definition clear_built (token_blind : Z) (spec : ClearInputSpec)
    (c : TxClearInput Sig) : Prop :=
  ci_value c = cs_value spec /\
  ci_token_id c = cs_token_id spec /\
  ci_token_blind c = token_blind /\
  ci_signature_public c
  = ec_multiply ec (cs_signature_secret spec) (ec_G ec).

Definition input_built (token_blind : Z) (spec : InputSpec)
    (i : TxInput Sig) : Prop :=
  ti_burn_proof i
  = burn_proof_of token_blind spec (bp_signature_secret (ti_burn_proof i)) /\
  ti_revealed i = BurnProof_get_revealed ec crypto (ti_burn_proof i).

Definition output_built (token_blind : Z) (spec : OutputSpec)
    (o : TxOutput) : Prop :=
  exists value_blind serial coin_blind,
    to_mint_proof o
    = mint_proof_of token_blind spec value_blind serial coin_blind /\
    to_revealed o = MintProof_get_revealed ec crypto (to_mint_proof o) /\
    to_enc_note o = note_of token_blind spec value_blind serial coin_blind.

(** A member carries a signature made over [data] with [secret]. *)
Definition signed_with (data : bytes) (secret : Z) (s : option Sig) : Prop :=
  exists rng, s = Some (fst (sign crypto data secret ec rng)).

Definition clear_signed (token_blind : Z) (data : bytes)
    (spec : ClearInputSpec) (c : TxClearInput Sig) : Prop :=
  clear_built token_blind spec c /\
  signed_with data (cs_signature_secret spec) (ci_signature c).

Definition input_signed (token_blind : Z) (data : bytes)
    (spec : InputSpec) (i : TxInput Sig) : Prop :=
  input_built token_blind spec i /\
  signed_with data (bp_signature_secret (ti_burn_proof i)) (ti_signature i).

(** The value blinds of the outputs of a transaction, in order. *)
Definition output_value_blinds (outputs : list TxOutput) : list Z :=
  map (fun o => n_value_blind (to_enc_note o)) outputs.

(** The blind [build] gives the last output, written as in the
    specification: clear-input blinds plus note blinds minus the blinds of
    the earlier outputs, modulo the scalar-field order. *)
Definition remainder_blind (clear_blinds note_blinds earlier : list Z) : Z :=
  (sum clear_blinds + sum note_blinds - sum earlier) mod ec_order ec.

End Built.
Arguments note_coin {Rng Sig} ec crypto _ _.
Arguments tx_output_of {Rng Sig} ec crypto _ _ _ _ _.
Arguments clear_built {Rng Sig} ec _ _ _.
Arguments input_built {Rng Sig} ec crypto _ _ _.
Arguments output_built {Rng Sig} ec crypto _ _ _.
Arguments signed_with {Rng Sig} ec crypto _ _ _.
Arguments clear_signed {Rng Sig} ec crypto _ _ _ _.
Arguments input_signed {Rng Sig} ec crypto _ _ _ _.
Arguments remainder_blind {Rng} ec _ _ _.

(** ** Sample builders and transactions over the small instance *)

Module Examples.

Definition hello : bytes := [x68; x65; x6c; x6c; x6f]%byte.

Definition empty_tx : Transaction Toy.Signature :=
  {| tx_clear_inputs := []; tx_inputs := []; tx_outputs := [] |}.

(** The transaction [build] returns, from generator state 42. *)
Definition built (b : TransactionBuilder) : Transaction Toy.Signature :=
  match build Toy.curve Toy.crypto b 42 with
  | (Return tx, _) => tx
  | (Raise _, _) => empty_tx
  end.

Definition recipient_a : Point := Toy.multiply 6 Toy.G.
Definition recipient_b : Point := Toy.multiply 7 Toy.G.

(** A note of value 50 of token 3, owned under the secret 4. *)
Definition note50 : Note :=
  {| n_serial := 1; n_value := 50; n_token_id := 3; n_coin_blind := 2;
     n_value_blind := 9; n_token_blind := 11; n_depends := 0;
     n_attrs := 0 |}.

Definition coin50 : Z := note_coin Toy.curve Toy.crypto 4 note50.

(** One clear input of 10, one output of 10. *)
Definition clear_to_shielded : TransactionBuilder :=
  add_output (add_clear_input TransactionBuilder_init 10 3 4)
             10 3 recipient_a 0 0.

(** The note of 50, a member of its coin set, split into 30 and 20. *)
Definition shielded_split : TransactionBuilder :=
  add_output
    (add_output (add_input TransactionBuilder_init [5; coin50] 4 note50)
                30 3 recipient_a 0 0)
    20 3 recipient_b 1 1.

(** One clear input of 10, one output of 11. *)
Definition imbalanced : TransactionBuilder :=
  add_output (add_clear_input TransactionBuilder_init 10 3 4)
             11 3 recipient_a 0 0.

(** The note of 50 against a coin set that does not hold its coin. *)
Definition foreign_note : TransactionBuilder :=
  add_output
    (add_output (add_input TransactionBuilder_init [5] 4 note50)
                30 3 recipient_a 0 0)
    20 3 recipient_b 1 1.

(** The shielded input of the transaction built for the foreign note, and
    the witness [build] hands to [BurnProof] for it. *)
Definition foreign_input : TxInput Toy.Signature :=
  nth 0 (tx_inputs (built foreign_note))
      {| ti_burn_proof :=
           burn_proof_of 0 {| is_all_coins := []; is_secret := 0;
                              is_note := note50 |} 0;
         ti_revealed :=
           {| br_nullifier := 0; br_value_commit := (0, 1, 0);
              br_token_commit := (0, 1, 0); br_all_coins := [];
              br_signature_public := (0, 1, 0) |};
         ti_signature := None |}.

Definition foreign_burn_proof : BurnProof := ti_burn_proof foreign_input.

(** The built clear-to-shielded transaction, its clear input re-signed
    under the secret 5 instead of 4. *)
Definition resigned : Transaction Toy.Signature :=
  let tx := built clear_to_shielded in
  {| tx_clear_inputs :=
       map (fun input =>
              set_clear_signature input
                (fst (Toy.sign hello 5 Toy.curve 7)))
           (tx_clear_inputs tx);
     tx_inputs := tx_inputs tx;
     tx_outputs := tx_outputs tx |}.

(** A transaction without outputs whose only member is a clear input of
    value 1. *)
Definition no_outputs : Transaction Toy.Signature :=
  {| tx_clear_inputs :=
       [{| ci_value := 1; ci_token_id := 3; ci_value_blind := 0;
           ci_token_blind := 0;
           ci_signature_public := Toy.multiply 4 Toy.G;
           ci_signature := Some (fst (Toy.sign hello 4 Toy.curve 7)) |}];
     tx_inputs := [];
     tx_outputs := [] |}.

(** Two clear inputs of different token ids, 10 of token 3 and 5 of
    token 4, one output of 15 of token 3. *)
Definition mixed_tokens : TransactionBuilder :=
  add_output
    (add_clear_input (add_clear_input TransactionBuilder_init 10 3 4) 5 4 6)
    15 3 recipient_a 0 0.

(** The built clear-to-shielded transaction with the revealed coin of
    its output replaced. *)
Definition tampered : Transaction Toy.Signature :=
  let tx := built clear_to_shielded in
  {| tx_clear_inputs := tx_clear_inputs tx;
     tx_inputs := tx_inputs tx;
     tx_outputs :=
       map (fun o =>
              {| to_mint_proof := to_mint_proof o;
                 to_revealed :=
                   {| mr_coin := mr_coin (to_revealed o) + 1;
                      mr_value_commit := mr_value_commit (to_revealed o);
                      mr_token_commit := mr_token_commit (to_revealed o) |};
                 to_enc_note := to_enc_note o |})
           (tx_outputs tx) |}.

End Examples.

(** * Properties *)

(** ** Python equality and sums *)

Lemma point_eqb_eq (P Q : Point) : point_eqb P Q = true <-> P = Q.
Proof.
  destruct P as [[x1 y1] z1], Q as [[x2 y2] z2]; simpl.
  rewrite !andb_true_iff, !Z.eqb_eq. split.
  - intros [[-> ->] ->]; reflexivity.
  - intros E; inversion E; auto.
Qed.

Lemma point_eqb_refl (P : Point) : point_eqb P P = true.
Proof. apply point_eqb_eq; reflexivity. Qed.

Lemma coins_eqb_refl (l : list Z) : coins_eqb l l = true.
Proof.
  induction l as [|x l IH]; simpl; [reflexivity|].
  now rewrite Z.eqb_refl, IH.
Qed.

Lemma coin_in_In (coin : Z) (l : list Z) : coin_in coin l = true <-> In coin l.
Proof.
  unfold coin_in. rewrite existsb_exists. split.
  - intros [x [Hin Hx]]. apply Z.eqb_eq in Hx. now subst.
  - intros Hin. exists coin. split; [assumption | apply Z.eqb_refl].
Qed.

Lemma coin_in_false (coin : Z) (l : list Z) :
  ~ In coin l -> coin_in coin l = false.
Proof.
  intros Hn. destruct (coin_in coin l) eqn:E; [|reflexivity].
  apply coin_in_In in E. contradiction.
Qed.

Lemma fold_add_shift (l : list Z) (a : Z) :
  fold_left Z.add l a = a + fold_left Z.add l 0.
Proof.
  revert a. induction l as [|x l IH]; intro a; simpl; [lia|].
  rewrite (IH (a + x)), (IH x). lia.
Qed.

Lemma sum_nil : sum [] = 0.
Proof. reflexivity. Qed.

Lemma sum_cons (x : Z) (l : list Z) : sum (x :: l) = x + sum l.
Proof. unfold sum; simpl. apply fold_add_shift. Qed.

Lemma sum_app (l1 l2 : list Z) : sum (l1 ++ l2) = sum l1 + sum l2.
Proof.
  induction l1 as [|x l1 IH]; simpl.
  - change (sum []) with 0. lia.
  - rewrite !sum_cons, IH. lia.
Qed.

(** ** Proof objects and verification gates *)

Section Gates.

Variables (Rng Sig : Type) (ec : Curve Rng) (crypto : Crypto Rng Sig).

Lemma BurnProof_comparisons_self (r : BurnRevealed) :
  Forall (fun b => b = true) (BurnProof_comparisons r r).
Proof.
  unfold BurnProof_comparisons.
  repeat constructor;
    auto using Z.eqb_refl, point_eqb_refl, coins_eqb_refl.
Qed.

Lemma all_true (l : list bool) :
  Forall (fun b => b = true) l -> forallb (fun b => b) l = true.
Proof.
  induction 1 as [|b l Hb _ IH]; simpl; [reflexivity|].
  now rewrite Hb, IH.
Qed.

Lemma MintProof_verify_self (mp : MintProof) :
  MintProof_verify ec crypto mp (MintProof_get_revealed ec crypto mp) = true.
Proof.
  unfold MintProof_verify. simpl.
  now rewrite Z.eqb_refl, !point_eqb_refl.
Qed.

Lemma BurnProof_verify_member (bp : BurnProof) (claim : BurnRevealed) :
  In (BurnProof_coin ec crypto bp) (bp_all_coins bp) ->
  BurnProof_verify ec crypto bp claim
  = forallb (fun b => b)
      (BurnProof_comparisons (BurnProof_get_revealed ec crypto bp) claim).
Proof.
  intros Hin. unfold BurnProof_verify.
  apply coin_in_In in Hin. now rewrite Hin.
Qed.

Lemma BurnProof_verify_foreign (bp : BurnProof) (claim : BurnRevealed) :
  ~ In (BurnProof_coin ec crypto bp) (bp_all_coins bp) ->
  BurnProof_verify ec crypto bp claim = false.
Proof.
  intros Hn. unfold BurnProof_verify.
  now rewrite (coin_in_false _ _ Hn).
Qed.

(** C10: verifying a burn proof against its own revealed values succeeds
    exactly when the coin recomputed from the witness is a member of
    [all_coins]; the five comparisons of the self round-trip are all true. *)
Theorem BurnProof_verify_self_iff_member (bp : BurnProof) :
  Forall (fun b => b = true)
    (BurnProof_comparisons (BurnProof_get_revealed ec crypto bp)
                           (BurnProof_get_revealed ec crypto bp))
  /\ (BurnProof_verify ec crypto bp (BurnProof_get_revealed ec crypto bp)
      = true
      <-> In (BurnProof_coin ec crypto bp) (bp_all_coins bp)).
Proof.
  split; [apply BurnProof_comparisons_self|].
  split.
  - intros Hv.
    destruct (in_dec Z.eq_dec (BurnProof_coin ec crypto bp) (bp_all_coins bp))
      as [Hin|Hn]; [assumption|].
    rewrite (BurnProof_verify_foreign _ _ Hn) in Hv. discriminate.
  - intros Hin. rewrite (BurnProof_verify_member _ _ Hin).
    apply all_true, BurnProof_comparisons_self.
Qed.

Lemma check_proofs_foreign (tx : Transaction Sig) (input : TxInput Sig) :
  In input (tx_inputs tx) ->
  ~ In (BurnProof_coin ec crypto (ti_burn_proof input))
       (bp_all_coins (ti_burn_proof input)) ->
  Transaction_check_proofs ec crypto tx = false.
Proof.
  intros Hin Hn. unfold Transaction_check_proofs.
  apply andb_false_iff. left.
  destruct (forallb _ (tx_inputs tx)) eqn:E; [|reflexivity].
  rewrite forallb_forall in E. specialize (E _ Hin).
  now rewrite (BurnProof_verify_foreign _ _ Hn) in E.
Qed.

(** C7: a burn proof whose recomputed coin is not in [all_coins] verifies
    against no claim, and a transaction holding it as a shielded input,
    with balanced value commitments, is rejected at the proof gate. *)
Theorem foreign_note_rejected (bp : BurnProof) :
  ~ In (BurnProof_coin ec crypto bp) (bp_all_coins bp) ->
  (forall claim, BurnProof_verify ec crypto bp claim = false)
  /\ (forall (tx : Transaction Sig) (input : TxInput Sig),
        In input (tx_inputs tx) ->
        ti_burn_proof input = bp ->
        Transaction_check_value_commits ec crypto tx = true ->
        Transaction_verify ec crypto tx
        = RetTuple false (Some "proofs failed to verify"%string)).
Proof.
  intros Hn. split.
  - intro claim. now apply BurnProof_verify_foreign.
  - intros tx input Hin Hbp Hval. subst bp.
    unfold Transaction_verify.
    rewrite Hval, (check_proofs_foreign tx input Hin Hn). reflexivity.
Qed.

(** The gates of [verify], in the order the code runs them. *)
Lemma verify_gate_value (tx : Transaction Sig) :
  Transaction_check_value_commits ec crypto tx = false ->
  Transaction_verify ec crypto tx
  = RetTuple false (Some "value commits do not match"%string).
Proof. intros H. unfold Transaction_verify. now rewrite H. Qed.

Lemma verify_gate_proofs (tx : Transaction Sig) :
  Transaction_check_value_commits ec crypto tx = true ->
  Transaction_check_proofs ec crypto tx = false ->
  Transaction_verify ec crypto tx
  = RetTuple false (Some "proofs failed to verify"%string).
Proof. intros H1 H2. unfold Transaction_verify. now rewrite H1, H2. Qed.

Lemma verify_gate_token (tx : Transaction Sig) :
  Transaction_check_value_commits ec crypto tx = true ->
  Transaction_check_proofs ec crypto tx = true ->
  Transaction_verify_token_commitments ec crypto tx = Return false ->
  Transaction_verify ec crypto tx
  = RetTuple false (Some "token ID mismatch"%string).
Proof.
  intros H1 H2 H3. unfold Transaction_verify. now rewrite H1, H2, H3.
Qed.

Lemma verify_gate_signature (tx : Transaction Sig) :
  Transaction_check_value_commits ec crypto tx = true ->
  Transaction_check_proofs ec crypto tx = true ->
  Transaction_verify_token_commitments ec crypto tx = Return true ->
  verify_clear_signatures ec crypto (partial_encode tx) (tx_clear_inputs tx)
  = Return false
  \/ (verify_clear_signatures ec crypto (partial_encode tx)
        (tx_clear_inputs tx) = Return true
      /\ verify_input_signatures ec crypto (partial_encode tx) (tx_inputs tx)
         = Return false) ->
  Transaction_verify ec crypto tx = RetBool false.
Proof.
  intros H1 H2 H3 [H4|[H4 H5]]; unfold Transaction_verify;
    rewrite H1, H2, H3; simpl; rewrite H4; [reflexivity|].
  now rewrite H5.
Qed.

(** C9 (as the code has it): on a transaction without outputs [verify]
    reports the value-commit gate or the proof gate when one of them
    fails, and otherwise stops at the [assert len(self.outputs) > 0] of
    the token gate; it never accepts. *)
Theorem verify_without_outputs (tx : Transaction Sig) :
  tx_outputs tx = [] ->
  Transaction_verify ec crypto tx
  = (if negb (Transaction_check_value_commits ec crypto tx)
     then RetTuple false (Some "value commits do not match"%string)
     else if negb (Transaction_check_proofs ec crypto tx)
     then RetTuple false (Some "proofs failed to verify"%string)
     else Raised AssertionError)
  /\ Transaction_verify ec crypto tx <> RetTuple true None.
Proof.
  intros Hout.
  assert (E : Transaction_verify_token_commitments ec crypto tx
              = Raise AssertionError).
  { unfold Transaction_verify_token_commitments. now rewrite Hout. }
  unfold Transaction_verify. rewrite E.
  destruct (Transaction_check_value_commits ec crypto tx);
    destruct (Transaction_check_proofs ec crypto tx); simpl;
    split; (reflexivity || discriminate).
Qed.

(** C6 (as the code has it): the encoding is the same byte string,
    [b"hello"], for every transaction; the message signed by [build] is
    the message checked by [verify], whatever the signatures are. *)
Theorem partial_encode_constant (tx tx' : Transaction Sig) :
  partial_encode tx = [x68; x65; x6c; x6c; x6f]%byte
  /\ partial_encode tx = partial_encode tx'.
Proof. split; reflexivity. Qed.

End Gates.

(** ** The loops of [build] *)

Section Loops.

Variables (Rng Sig : Type) (ec : Curve Rng) (crypto : Crypto Rng Sig).

Lemma after_scalars_S (n : nat) (rng : Rng) :
  after_scalars ec (S n) rng
  = after_scalars ec n (snd (ec_random_scalar ec rng)).
Proof. unfold after_scalars. now rewrite Nat.iter_succ_r. Qed.

Lemma after_scalars_add (n m : nat) (rng : Rng) :
  after_scalars ec (n + m) rng = after_scalars ec m (after_scalars ec n rng).
Proof.
  revert rng. induction n as [|n IH]; intro rng; [reflexivity|].
  change (S n + m)%nat with (S (n + m)).
  now rewrite !after_scalars_S, IH.
Qed.

Lemma build_clear_inputs_spec (token_blind : Z) (specs : list ClearInputSpec) :
  forall (acc : list (TxClearInput Sig)) (rng : Rng),
  exists new,
    build_clear_inputs ec token_blind specs acc rng
    = (Return (acc ++ new), after_scalars ec (List.length specs) rng)
    /\ Forall2 (clear_built ec token_blind) specs new.
Proof.
  induction specs as [|input rest IH]; intros acc rng.
  - exists []. rewrite app_nil_r. split; [reflexivity | constructor].
  - cbn [build_clear_inputs List.length].
    unfold bind at 1, random_scalar at 1. rewrite after_scalars_S.
    destruct (ec_random_scalar ec rng) as [value_blind rng1]. cbn [snd].
    match goal with
    | |- context [build_clear_inputs _ _ _ (acc ++ [?c]) _] =>
        destruct (IH (acc ++ [c]) rng1) as [new [Heq HF]]; exists (c :: new)
    end.
    rewrite Heq, <- app_assoc. split; [reflexivity|].
    constructor; [|assumption]. repeat split.
Qed.

Lemma build_inputs_spec (token_blind : Z) (specs : list InputSpec) :
  forall (input_blinds signature_secrets : list Z)
         (acc : list (TxInput Sig)) (rng : Rng),
  exists new,
    build_inputs ec crypto token_blind specs input_blinds signature_secrets
                 acc rng
    = (Return (input_blinds ++ map (fun s => n_value_blind (is_note s)) specs,
               signature_secrets
               ++ map (fun i => bp_signature_secret (ti_burn_proof i)) new,
               acc ++ new),
       after_scalars ec (List.length specs) rng)
    /\ Forall2 (input_built ec crypto token_blind) specs new.
Proof.
  induction specs as [|input rest IH];
    intros input_blinds signature_secrets acc rng.
  - exists []. cbn [map]. rewrite !app_nil_r.
    split; [reflexivity | constructor].
  - cbn [build_inputs List.length].
    unfold bind at 1, random_scalar at 1. rewrite after_scalars_S.
    destruct (ec_random_scalar ec rng) as [signature_secret rng1]. cbn [snd].
    match goal with
    | |- context [build_inputs _ _ _ _ ?ib ?ss (acc ++ [?i]) _] =>
        destruct (IH ib ss (acc ++ [i]) rng1) as [new [Heq HF]];
        exists (i :: new)
    end.
    rewrite Heq, <- !app_assoc. split; [reflexivity|].
    constructor; [|assumption]. split; reflexivity.
Qed.

Lemma fresh_blinds_S (rng : Rng) (m : nat) :
  fresh_blinds ec rng (S m)
  = fst (ec_random_scalar ec rng) :: fresh_blinds ec (output_draws ec rng) m.
Proof.
  unfold fresh_blinds. cbn [seq map Nat.iter]. f_equal.
  rewrite <- seq_shift, map_map. apply map_ext. intro j.
  now rewrite Nat.iter_succ_r.
Qed.

Lemma tx_output_of_built (token_blind : Z) (output : OutputSpec)
    (value_blind serial coin_blind : Z) :
  output_built ec crypto token_blind output
    (tx_output_of ec crypto token_blind output value_blind serial coin_blind).
Proof. exists value_blind, serial, coin_blind. repeat split. Qed.

(** One turn of the output loop, once the value blind is known. *)
Lemma build_outputs_step (token_blind : Z) (len_outputs : nat)
    (clear_inputs : list (TxClearInput Sig)) (input_blinds : list Z)
    (i : nat) (output : OutputSpec) (rest : list OutputSpec)
    (output_blinds : list Z) (acc : list TxOutput)
    (rng rng1 : Rng) (value_blind : Z) :
  (if Nat.eqb i (len_outputs - 1)
   then (fun r => (compute_remainder_blind ec clear_inputs input_blinds
                                           output_blinds, r))
   else (fun r => let (x, r') := ec_random_scalar ec r in (Return x, r')))
    rng = (Return value_blind, rng1) ->
  build_outputs ec crypto token_blind len_outputs clear_inputs input_blinds
                i (output :: rest) output_blinds acc rng
  = build_outputs ec crypto token_blind len_outputs clear_inputs input_blinds
      (S i) rest (output_blinds ++ [value_blind])
      (acc ++ [tx_output_of ec crypto token_blind output value_blind
                 (fst (ec_random_base ec rng1))
                 (fst (ec_random_base ec (snd (ec_random_base ec rng1))))])
      (snd (ec_random_base ec (snd (ec_random_base ec rng1)))).
Proof.
  intros Hblind. cbn [build_outputs]. unfold bind at 1.
  match goal with
  | |- context [match ?m rng with _ => _ end] =>
      assert (E : m rng = (Return value_blind, rng1))
        by (rewrite <- Hblind;
            destruct (Nat.eqb i (len_outputs - 1)); reflexivity);
      rewrite E
  end.
  unfold bind at 1, random_base at 1.
  destruct (ec_random_base ec rng1) as [serial rng2]. cbn [fst snd].
  unfold bind at 1, random_base at 1.
  destruct (ec_random_base ec rng2) as [coin_blind rng3]. cbn [fst snd].
  unfold bind at 1. cbn [n_value n_token_id n_value_blind n_token_blind
                         n_serial n_coin_blind].
  rewrite MintProof_verify_self. reflexivity.
Qed.

Lemma build_outputs_spec (token_blind : Z) (len_outputs : nat)
    (clear_inputs : list (TxClearInput Sig)) (input_blinds : list Z) :
  ec_order ec <> 0 ->
  forall (specs : list OutputSpec) (i : nat) (output_blinds : list Z)
         (acc : list TxOutput) (rng : Rng),
  specs <> [] ->
  (i + List.length specs = len_outputs)%nat ->
  exists new rng',
    build_outputs ec crypto token_blind len_outputs clear_inputs input_blinds
                  i specs output_blinds acc rng
    = (Return (acc ++ new), rng')
    /\ Forall2 (output_built ec crypto token_blind) specs new
    /\ output_value_blinds new
       = fresh_blinds ec rng (List.length specs - 1)
         ++ [remainder_blind ec (map ci_value_blind clear_inputs) input_blinds
               (output_blinds
                ++ fresh_blinds ec rng (List.length specs - 1))].
Proof.
  intros Hq. induction specs as [|output rest IH];
    intros i output_blinds acc rng Hne Hlen; [congruence|].
  destruct rest as [|output' rest].
  - (* the last output *)
    cbn [List.length] in Hlen |- *.
    assert (Hi : Nat.eqb i (len_outputs - 1) = true)
      by (apply Nat.eqb_eq; lia).
    eexists _, _. split; [|split].
    + rewrite (build_outputs_step _ _ _ _ _ _ _ _ _ rng rng
                 (remainder_blind ec (map ci_value_blind clear_inputs)
                    input_blinds output_blinds)).
      * cbn [build_outputs]. reflexivity.
      * rewrite Hi. unfold compute_remainder_blind, py_mod, remainder_blind.
        apply Z.eqb_neq in Hq. rewrite Hq. reflexivity.
    + constructor; [apply tx_output_of_built | constructor].
    + cbn. unfold fresh_blinds. cbn. now rewrite app_nil_r.
  - (* an earlier output *)
    assert (Hi : Nat.eqb i (len_outputs - 1) = false)
      by (apply Nat.eqb_neq; cbn [List.length] in Hlen; lia).
    rewrite (build_outputs_step _ _ _ _ _ _ _ _ _ rng
               (snd (ec_random_scalar ec rng))
               (fst (ec_random_scalar ec rng)))
      by (rewrite Hi; destruct (ec_random_scalar ec rng); reflexivity).
    match goal with
    | |- context [build_outputs _ _ _ _ _ _ _ _ ?ob (acc ++ [?o]) ?r] =>
        destruct (IH (S i) ob (acc ++ [o]) r) as [new [rng' [Heq [HF Hbl]]]];
        [discriminate | cbn [List.length] in Hlen |- *; lia |];
        exists (o :: new), rng'
    end.
    rewrite Heq, <- app_assoc. split; [reflexivity|]. split.
    + constructor; [apply tx_output_of_built | assumption].
    + replace (List.length (output :: output' :: rest) - 1)%nat
        with (S (List.length (output' :: rest) - 1))
        by (cbn [List.length]; lia).
      rewrite fresh_blinds_S.
      unfold output_value_blinds in *. cbn [map]. rewrite Hbl.
      cbn [tx_output_of to_enc_note note_of n_value_blind].
      unfold output_draws. rewrite <- !app_assoc. reflexivity.
Qed.

Lemma sign_clear_inputs_spec (data : bytes) (token_blind : Z)
    (infos : list ClearInputSpec) (inputs : list (TxClearInput Sig)) :
  Forall2 (clear_built ec token_blind) infos inputs ->
  forall rng, exists inputs' rng',
    sign_clear_inputs ec crypto data inputs infos rng = (Return inputs', rng')
    /\ Forall2 (clear_signed ec crypto token_blind data) infos inputs'
    /\ map ci_value_blind inputs' = map ci_value_blind inputs.
Proof.
  induction 1 as [|info input infos inputs Hb _ IH]; intro rng.
  - exists [], rng. repeat split; constructor.
  - cbn [sign_clear_inputs]. unfold bind at 1, do_sign at 1.
    destruct (sign crypto data (cs_signature_secret info) ec rng)
      as [signature rng1] eqn:Es.
    destruct (IH rng1) as [inputs' [rng' [Heq [HF Hvb]]]].
    unfold bind at 1. rewrite Heq.
    eexists _, _. split; [reflexivity|]. split.
    + constructor; [|assumption]. split.
      * destruct Hb as (? & ? & ? & ?). repeat split; assumption.
      * exists rng. cbn. now rewrite Es.
    + cbn. now rewrite Hvb.
Qed.

Lemma sign_inputs_spec (data : bytes) (token_blind : Z)
    (specs : list InputSpec) (inputs : list (TxInput Sig)) :
  Forall2 (input_built ec crypto token_blind) specs inputs ->
  forall rng, exists inputs' rng',
    sign_inputs ec crypto data inputs
      (map (fun i => bp_signature_secret (ti_burn_proof i)) inputs) rng
    = (Return inputs', rng')
    /\ Forall2 (input_signed ec crypto token_blind data) specs inputs'.
Proof.
  induction 1 as [|spec input specs inputs Hb _ IH]; intro rng.
  - exists [], rng. split; constructor.
  - cbn [sign_inputs map]. unfold bind at 1, do_sign at 1.
    destruct (sign crypto data (bp_signature_secret (ti_burn_proof input))
                   ec rng) as [signature rng1] eqn:Es.
    destruct (IH rng1) as [inputs' [rng' [Heq HF]]].
    unfold bind at 1. rewrite Heq.
    eexists _, _. split; [reflexivity|].
    constructor; [|assumption]. split.
    + exact Hb.
    + exists rng. cbn. now rewrite Es.
Qed.

(** What [build] returns on a builder with at least one output. *)
Lemma build_spec (self : TransactionBuilder) (rng : Rng) :
  ec_order ec <> 0 ->
  b_outputs self <> [] ->
  exists tx rng',
    build ec crypto self rng = (Return tx, rng')
    /\ Forall2 (clear_signed ec crypto (fst (ec_random_scalar ec rng))
                             (partial_encode tx))
               (b_clear_inputs self) (tx_clear_inputs tx)
    /\ Forall2 (input_signed ec crypto (fst (ec_random_scalar ec rng))
                             (partial_encode tx))
               (b_inputs self) (tx_inputs tx)
    /\ Forall2 (output_built ec crypto (fst (ec_random_scalar ec rng)))
               (b_outputs self) (tx_outputs tx)
    /\ output_value_blinds (tx_outputs tx)
       = fresh_blinds ec (rng_at_outputs ec self rng)
                      (List.length (b_outputs self) - 1)
         ++ [remainder_blind ec
               (map ci_value_blind (tx_clear_inputs tx))
               (map (fun s => n_value_blind (is_note s)) (b_inputs self))
               (fresh_blinds ec (rng_at_outputs ec self rng)
                             (List.length (b_outputs self) - 1))].
Proof.
  intros Hq Hne. unfold build, rng_at_outputs.
  rewrite !after_scalars_add.
  change (after_scalars ec 1 rng) with (snd (ec_random_scalar ec rng)).
  unfold bind at 1, random_scalar at 1.
  destruct (ec_random_scalar ec rng) as [token_blind rng0]. cbn [fst snd].
  destruct (build_clear_inputs_spec token_blind (b_clear_inputs self) [] rng0)
    as [clear [Hc HFc]].
  unfold bind at 1. rewrite Hc. cbn [app].
  destruct (build_inputs_spec token_blind (b_inputs self) [] [] [] 
              (after_scalars ec (List.length (b_clear_inputs self)) rng0))
    as [inputs [Hi HFi]].
  unfold bind at 1. rewrite Hi. cbn [app].
  unfold bind at 1.
  assert (Ha : Nat.eqb (List.length (b_outputs self)) 0 = false).
  { destruct (b_outputs self); [congruence | reflexivity]. }
  rewrite Ha. cbn [negb py_assert ret].
  destruct (build_outputs_spec token_blind (List.length (b_outputs self))
              clear (map (fun s => n_value_blind (is_note s)) (b_inputs self))
              Hq (b_outputs self) 0%nat [] []
              (after_scalars ec (List.length (b_inputs self))
                 (after_scalars ec (List.length (b_clear_inputs self)) rng0))
              Hne eq_refl)
    as [outputs [rng1 [Ho [HFo Hbl]]]].
  unfold bind at 1. rewrite Ho. cbn [app].
  destruct (sign_clear_inputs_spec
              (partial_encode {| tx_clear_inputs := clear;
                                 tx_inputs := inputs;
                                 tx_outputs := outputs |})
              token_blind _ _ HFc rng1)
    as [clear' [rng2 [Hsc [HFsc Hvb]]]].
  unfold bind at 1. rewrite Hsc.
  destruct (sign_inputs_spec
              (partial_encode {| tx_clear_inputs := clear;
                                 tx_inputs := inputs;
                                 tx_outputs := outputs |})
              token_blind _ _ HFi rng2)
    as [inputs' [rng3 [Hsi HFsi]]].
  unfold bind at 1. rewrite Hsi.
  eexists _, _. split; [reflexivity|].
  cbn [tx_clear_inputs tx_inputs tx_outputs].
  repeat split; try assumption.
  rewrite Hvb. exact Hbl.
Qed.

End Loops.

(** ** The transaction returned by [build] *)

Section Build.

Variables (Rng Sig : Type) (ec : Curve Rng) (crypto : Crypto Rng Sig).

Lemma Forall2_length_eq {A B} (R : A -> B -> Prop) (l : list A) (l' : list B) :
  Forall2 R l l' -> List.length l = List.length l'.
Proof. induction 1; cbn; congruence. Qed.

Lemma Forall2_transfer {A B} (R : A -> B -> Prop) (P : A -> Prop)
    (Q : B -> Prop) (l : list A) (l' : list B) :
  (forall x y, R x y -> P x -> Q y) ->
  Forall2 R l l' -> Forall P l -> Forall Q l'.
Proof.
  intros HRQ HF. induction HF as [|x y l l' Hxy _ IH]; intro HP.
  - constructor.
  - inversion HP; subst. constructor; eauto.
Qed.

Lemma Forall2_map_eq {A B C} (R : A -> B -> Prop) (f : A -> C) (g : B -> C)
    (l : list A) (l' : list B) :
  (forall x y, R x y -> f x = g y) ->
  Forall2 R l l' -> map f l = map g l'.
Proof.
  intros Hfg. induction 1 as [|x y l l' Hxy _ IH]; cbn; [reflexivity|].
  now rewrite (Hfg _ _ Hxy), IH.
Qed.

Lemma fresh_blinds_length (rng : Rng) (m : nat) :
  List.length (fresh_blinds ec rng m) = m.
Proof. unfold fresh_blinds. now rewrite length_map, length_seq. Qed.

Lemma fresh_blinds_nth (rng : Rng) (m i : nat) :
  (i < m)%nat ->
  nth i (fresh_blinds ec rng m) 0
  = fst (ec_random_scalar ec (Nat.iter i (output_draws ec) rng)).
Proof.
  intro Hi. unfold fresh_blinds.
  rewrite (nth_indep _ 0
             (fst (ec_random_scalar ec (Nat.iter 0 (output_draws ec) rng))))
    by (now rewrite length_map, length_seq).
  rewrite (map_nth (fun j => fst (ec_random_scalar ec
                                    (Nat.iter j (output_draws ec) rng)))).
  now rewrite seq_nth.
Qed.

(** C8: with [k >= 1] outputs, the last output's value blind is the sum
    of the clear-input value blinds plus the sum of the note value blinds
    minus the sum of the earlier outputs' value blinds, modulo the
    scalar-field order; the value blind of every earlier output [i] is the
    scalar sampled from the generator at the start of turn [i] of the
    output loop. *)
Theorem build_output_value_blinds (self : TransactionBuilder) (rng : Rng) :
  ec_order ec <> 0 ->
  b_outputs self <> [] ->
  exists tx rng',
    build ec crypto self rng = (Return tx, rng')
    /\ List.length (tx_outputs tx) = List.length (b_outputs self)
    /\ last (output_value_blinds (tx_outputs tx)) 0
       = (sum (map ci_value_blind (tx_clear_inputs tx))
          + sum (map (fun s => n_value_blind (is_note s)) (b_inputs self))
          - sum (removelast (output_value_blinds (tx_outputs tx))))
         mod ec_order ec
    /\ forall i, (i < List.length (b_outputs self) - 1)%nat ->
         nth i (output_value_blinds (tx_outputs tx)) 0
         = fst (ec_random_scalar ec
                  (Nat.iter i (output_draws ec)
                     (rng_at_outputs ec self rng))).
Proof.
  intros Hq Hne.
  destruct (build_spec Rng Sig ec crypto self rng Hq Hne)
    as [tx [rng' [Hb [_ [_ [HFo Hbl]]]]]].
  exists tx, rng'. split; [exact Hb|]. split.
  - symmetry. exact (Forall2_length_eq _ _ _ HFo).
  - rewrite Hbl. split.
    + rewrite last_last, removelast_last. reflexivity.
    + intros i Hi.
      rewrite app_nth1 by (now rewrite fresh_blinds_length).
      now apply fresh_blinds_nth.
Qed.

(** C5 (as the code has it): the burn proof of every shielded input is
    built over the note's witness with the note's own value blind, but with
    the token blind sampled at the start of [build], the one every clear
    input and every output note of the transaction carries. *)
Theorem build_burn_proof_blinds (self : TransactionBuilder) (rng : Rng) :
  ec_order ec <> 0 ->
  b_outputs self <> [] ->
  exists tx rng',
    build ec crypto self rng = (Return tx, rng')
    /\ Forall2
         (fun spec input =>
            ti_burn_proof input
            = burn_proof_of (fst (ec_random_scalar ec rng)) spec
                (bp_signature_secret (ti_burn_proof input))
            /\ bp_value_blind (ti_burn_proof input)
               = n_value_blind (is_note spec)
            /\ bp_token_blind (ti_burn_proof input)
               = fst (ec_random_scalar ec rng))
         (b_inputs self) (tx_inputs tx)
    /\ Forall (fun c => ci_token_blind c = fst (ec_random_scalar ec rng))
              (tx_clear_inputs tx)
    /\ Forall (fun o => n_token_blind (to_enc_note o)
                        = fst (ec_random_scalar ec rng))
              (tx_outputs tx).
Proof.
  intros Hq Hne.
  destruct (build_spec Rng Sig ec crypto self rng Hq Hne)
    as [tx [rng' [Hb [HFc [HFi [HFo _]]]]]].
  exists tx, rng'. split; [exact Hb|]. split; [|split].
  - eapply Forall2_impl; [|exact HFi].
    intros spec input [[Hbp _] _]. split; [exact Hbp|].
    rewrite Hbp. split; reflexivity.
  - eapply (Forall2_transfer _ (fun _ => True)); [| exact HFc |].
    + intros spec c [(_ & _ & Htb & _) _] _. exact Htb.
    + apply Forall_forall. trivial.
  - eapply (Forall2_transfer _ (fun _ => True)); [| exact HFo |].
    + intros spec o (vb & serial & cb & _ & _ & Hn) _. now rewrite Hn.
    + apply Forall_forall. trivial.
Qed.

End Build.

(** ** Commitments of a built transaction *)

Section Commitments.

Variables (Rng Sig : Type) (ec : Curve Rng) (crypto : Crypto Rng Sig).

Lemma Forall_forallb {A} (f : A -> bool) (l : list A) :
  Forall (fun x => f x = true) l -> forallb f l = true.
Proof. intro H. apply forallb_forall. now apply Forall_forall. Qed.

Lemma mint_revealed_token_commit (mp : MintProof) :
  mr_token_commit (MintProof_get_revealed ec crypto mp)
  = pedersen_encrypt crypto (mp_token_id mp) (mp_token_blind mp) ec.
Proof.
  unfold MintProof_get_revealed.
  destruct (mp_public mp) as [[? ?] ?]; reflexivity.
Qed.

Lemma mint_revealed_value_commit (mp : MintProof) :
  mr_value_commit (MintProof_get_revealed ec crypto mp)
  = pedersen_encrypt crypto (mp_value mp) (mp_value_blind mp) ec.
Proof.
  unfold MintProof_get_revealed.
  destruct (mp_public mp) as [[? ?] ?]; reflexivity.
Qed.

Lemma clear_token_commit (tb : Z) (data : bytes) (spec : ClearInputSpec)
    (c : TxClearInput Sig) :
  clear_signed ec crypto tb data spec c ->
  pedersen_encrypt crypto (ci_token_id c) (ci_token_blind c) ec
  = pedersen_encrypt crypto (cs_token_id spec) tb ec.
Proof. intros [(_ & -> & -> & _) _]. reflexivity. Qed.

Lemma input_token_commit (tb : Z) (data : bytes) (spec : InputSpec)
    (i : TxInput Sig) :
  input_signed ec crypto tb data spec i ->
  br_token_commit (ti_revealed i)
  = pedersen_encrypt crypto (n_token_id (is_note spec)) tb ec.
Proof. intros [[Hbp ->] _]. rewrite Hbp. reflexivity. Qed.

Lemma output_token_commit (tb : Z) (spec : OutputSpec) (o : TxOutput) :
  output_built ec crypto tb spec o ->
  mr_token_commit (to_revealed o)
  = pedersen_encrypt crypto (os_token_id spec) tb ec.
Proof.
  intros (vb & serial & cb & Hmp & -> & _).
  rewrite mint_revealed_token_commit, Hmp. reflexivity.
Qed.

(** The token gate on a transaction whose members have the shape [build]
    gives them, all specs carrying the token id [token]. *)
Lemma token_commitments_built (tb : Z) (data : bytes)
    (self : TransactionBuilder) (tx : Transaction Sig) (token : Z) :
  Forall2 (clear_signed ec crypto tb data)
          (b_clear_inputs self) (tx_clear_inputs tx) ->
  Forall2 (input_signed ec crypto tb data) (b_inputs self) (tx_inputs tx) ->
  Forall2 (output_built ec crypto tb) (b_outputs self) (tx_outputs tx) ->
  b_outputs self <> [] ->
  Forall (fun s => cs_token_id s = token) (b_clear_inputs self) ->
  Forall (fun s => n_token_id (is_note s) = token) (b_inputs self) ->
  Forall (fun s => os_token_id s = token) (b_outputs self) ->
  exists output0 others,
    tx_outputs tx = output0 :: others
    /\ Forall (fun c =>
                 pedersen_encrypt crypto (ci_token_id c) (ci_token_blind c) ec
                 = mr_token_commit (to_revealed output0))
              (tx_clear_inputs tx)
    /\ Forall (fun i => br_token_commit (ti_revealed i)
                        = mr_token_commit (to_revealed output0))
              (tx_inputs tx)
    /\ Forall (fun o => mr_token_commit (to_revealed o)
                        = mr_token_commit (to_revealed output0))
              (tx_outputs tx)
    /\ Transaction_verify_token_commitments ec crypto tx = Return true.
Proof.
  intros HFc HFi HFo Hne Hc Hi Ho.
  set (T := pedersen_encrypt crypto token tb ec).
  assert (Hc' : Forall (fun c => pedersen_encrypt crypto (ci_token_id c)
                                   (ci_token_blind c) ec = T)
                       (tx_clear_inputs tx)).
  { eapply Forall2_transfer; [| exact HFc | exact Hc].
    intros s c Hsc Hs. cbn beta in Hs.
    rewrite (clear_token_commit _ _ _ _ Hsc), Hs. reflexivity. }
  assert (Hi' : Forall (fun i => br_token_commit (ti_revealed i) = T)
                       (tx_inputs tx)).
  { eapply Forall2_transfer; [| exact HFi | exact Hi].
    intros s i Hsi Hs. cbn beta in Hs.
    rewrite (input_token_commit _ _ _ _ Hsi), Hs. reflexivity. }
  assert (Ho' : Forall (fun o => mr_token_commit (to_revealed o) = T)
                       (tx_outputs tx)).
  { eapply Forall2_transfer; [| exact HFo | exact Ho].
    intros s o Hso Hs. cbn beta in Hs.
    rewrite (output_token_commit _ _ _ Hso), Hs. reflexivity. }
  unfold Transaction_verify_token_commitments.
  destruct (tx_outputs tx) as [|output0 others].
  { inversion HFo; subst; congruence. }
  assert (H0 : mr_token_commit (to_revealed output0) = T)
    by (inversion Ho'; assumption).
  exists output0, others. split; [reflexivity|]. rewrite H0.
  split; [exact Hc'|]. split; [exact Hi'|]. split; [exact Ho'|].
  f_equal.
  rewrite !andb_true_iff. repeat split; apply Forall_forallb.
  - eapply Forall_impl; [|exact Hc']. intros c ->. apply point_eqb_refl.
  - eapply Forall_impl; [|exact Hi']. intros i ->. apply point_eqb_refl.
  - eapply Forall_impl; [|exact Ho']. intros o ->. apply point_eqb_refl.
Qed.

(** C3: when every spec carries the same token id, every token
    commitment of the built transaction (recomputed for a clear input,
    revealed for a shielded input or an output) equals the token commitment
    of the first output, and the token gate returns [True]. *)
Theorem build_token_uniform (self : TransactionBuilder) (rng : Rng)
    (token : Z) :
  ec_order ec <> 0 ->
  b_outputs self <> [] ->
  Forall (fun s => cs_token_id s = token) (b_clear_inputs self) ->
  Forall (fun s => n_token_id (is_note s) = token) (b_inputs self) ->
  Forall (fun s => os_token_id s = token) (b_outputs self) ->
  exists tx rng' output0 others,
    build ec crypto self rng = (Return tx, rng')
    /\ tx_outputs tx = output0 :: others
    /\ Forall (fun c =>
                 pedersen_encrypt crypto (ci_token_id c) (ci_token_blind c) ec
                 = mr_token_commit (to_revealed output0))
              (tx_clear_inputs tx)
    /\ Forall (fun i => br_token_commit (ti_revealed i)
                        = mr_token_commit (to_revealed output0))
              (tx_inputs tx)
    /\ Forall (fun o => mr_token_commit (to_revealed o)
                        = mr_token_commit (to_revealed output0))
              (tx_outputs tx)
    /\ Transaction_verify_token_commitments ec crypto tx = Return true.
Proof.
  intros Hq Hne Hc Hi Ho.
  destruct (build_spec Rng Sig ec crypto self rng Hq Hne)
    as [tx [rng' [Hb [HFc [HFi [HFo _]]]]]].
  destruct (token_commitments_built _ _ _ _ _ HFc HFi HFo Hne Hc Hi Ho)
    as [output0 [others H]].
  exists tx, rng', output0, others. split; [exact Hb | exact H].
Qed.

End Commitments.

(** ** Value balance and the round trip *)

Section Balance.

Variables (Rng Sig : Type) (ec : Curve Rng) (crypto : Crypto Rng Sig).
Hypothesis laws : CommitLaws ec crypto.

Local Abbreviation commit v r := (pedersen_encrypt crypto v r ec).

Lemma fold_commits_add {A} (f : A -> Point) (v r : A -> Z) (l : list A) :
  Forall (fun x => f x = commit (v x) (r x)) l ->
  forall a b,
    fold_left (fun total x => ec_add ec total (f x)) l (commit a b)
    = commit (a + sum (map v l)) (b + sum (map r l)).
Proof.
  induction 1 as [|x l Hx _ IH]; intros a b; cbn [fold_left map].
  - change (sum []) with 0. now rewrite !Z.add_0_r.
  - rewrite Hx, (commit_add _ _ laws), IH, !sum_cons. f_equal; lia.
Qed.

Lemma fold_commits_sub {A} (f : A -> Point) (v r : A -> Z) (l : list A) :
  Forall (fun x => f x = commit (v x) (r x)) l ->
  forall a b,
    fold_left (fun total x => ec_add ec total (negate_y (f x))) l (commit a b)
    = commit (a - sum (map v l)) (b - sum (map r l)).
Proof.
  induction 1 as [|x l Hx _ IH]; intros a b; cbn [fold_left map].
  - change (sum []) with 0. now rewrite !Z.sub_0_r.
  - rewrite Hx, (commit_sub _ _ laws), IH, !sum_cons. f_equal; lia.
Qed.

Lemma commit_balanced (b : Z) :
  b mod ec_order ec = 0 -> commit 0 b = (0, 1, 0).
Proof.
  intro Hb.
  rewrite <- (commit_blind_mod _ _ laws), Hb. apply (commit_zero _ _ laws).
Qed.

Lemma remainder_closes (total earlier : Z) :
  (total - (earlier + (total - earlier) mod ec_order ec)) mod ec_order ec = 0.
Proof.
  pose proof (order_nonzero _ _ laws) as Hq.
  pose proof (Z.div_mod (total - earlier) (ec_order ec) Hq) as Hd.
  replace (total - (earlier + (total - earlier) mod ec_order ec))
    with ((total - earlier) / ec_order ec * ec_order ec) by lia.
  apply Z_mod_mult.
Qed.

(** The value-commit gate on a transaction whose members have the shape
    [build] gives them. *)
Lemma check_value_commits_built (tb : Z) (data : bytes)
    (self : TransactionBuilder) (tx : Transaction Sig) (fresh : list Z) :
  Forall2 (clear_signed ec crypto tb data)
          (b_clear_inputs self) (tx_clear_inputs tx) ->
  Forall2 (input_signed ec crypto tb data) (b_inputs self) (tx_inputs tx) ->
  Forall2 (output_built ec crypto tb) (b_outputs self) (tx_outputs tx) ->
  output_value_blinds (tx_outputs tx)
  = fresh ++ [remainder_blind ec
                (map ci_value_blind (tx_clear_inputs tx))
                (map (fun s => n_value_blind (is_note s)) (b_inputs self))
                fresh] ->
  sum (map cs_value (b_clear_inputs self))
  + sum (map (fun s => n_value (is_note s)) (b_inputs self))
  = sum (map os_value (b_outputs self)) ->
  Transaction_check_value_commits ec crypto tx = true.
Proof.
  intros HFc HFi HFo Hbl Hval.
  unfold Transaction_check_value_commits. cbv zeta.
  rewrite <- (commit_zero _ _ laws) at 1.
  rewrite (fold_commits_add
             (fun c => pedersen_encrypt crypto (ci_value c)
                                        (ci_value_blind c) ec)
             ci_value ci_value_blind)
    by (apply Forall_forall; reflexivity).
  rewrite (fold_commits_add
             (fun i => br_value_commit (ti_revealed i))
             (fun i => bp_value (ti_burn_proof i))
             (fun i => bp_value_blind (ti_burn_proof i))).
  2:{ eapply (Forall2_transfer _ (fun _ => True)); [| exact HFi |].
      - intros s i [[_ ->] _] _. reflexivity.
      - apply Forall_forall. trivial. }
  rewrite (fold_commits_sub
             (fun o => mr_value_commit (to_revealed o))
             (fun o => mp_value (to_mint_proof o))
             (fun o => n_value_blind (to_enc_note o))).
  2:{ eapply (Forall2_transfer _ (fun _ => True)); [| exact HFo |].
      - intros s o (vb & serial & cb & Hmp & -> & Hn) _.
        rewrite mint_revealed_value_commit, Hmp, Hn. reflexivity.
      - apply Forall_forall. trivial. }
  fold (output_value_blinds (tx_outputs tx)). rewrite Hbl.
  rewrite <- (Forall2_map_eq _ cs_value ci_value _ _
                (fun s c (H : clear_signed ec crypto tb data s c) =>
                   eq_sym (proj1 (proj1 H))) HFc).
  rewrite <- (Forall2_map_eq _ (fun s => n_value (is_note s))
                (fun i => bp_value (ti_burn_proof i)) _ _
                (fun s i (H : input_signed ec crypto tb data s i) =>
                   eq_sym (f_equal bp_value (proj1 (proj1 H)))) HFi).
  rewrite <- (Forall2_map_eq _ (fun s => n_value_blind (is_note s))
                (fun i => bp_value_blind (ti_burn_proof i)) _ _
                (fun s i (H : input_signed ec crypto tb data s i) =>
                   eq_sym (f_equal bp_value_blind (proj1 (proj1 H)))) HFi).
  assert (Hov : map os_value (b_outputs self)
                = map (fun o => mp_value (to_mint_proof o)) (tx_outputs tx)).
  { eapply Forall2_map_eq; [|exact HFo].
    intros s o (vb & serial & cb & Hmp & _ & _). now rewrite Hmp. }
  rewrite <- Hov.
  apply point_eqb_eq.
  replace (0 + sum (map cs_value (b_clear_inputs self))
           + sum (map (fun s => n_value (is_note s)) (b_inputs self))
           - sum (map os_value (b_outputs self))) with 0 by lia.
  apply commit_balanced.
  unfold remainder_blind. rewrite sum_app, sum_cons.
  change (sum []) with 0.
  match goal with
  | |- ?x mod _ = 0 =>
      match x with
      | context [(?t - ?e) mod _] =>
          replace x with (t - (e + (t - e) mod ec_order ec)) by lia
      end
  end.
  apply remainder_closes.
Qed.

(** C2 (as the code has it): when the clear-input values plus the note
    values of the shielded inputs add up to the output values, the value
    commitments of the built transaction sum to the identity and
    [_check_value_commits] returns [True]. *)
Theorem build_value_commits_balance (self : TransactionBuilder) (rng : Rng) :
  b_outputs self <> [] ->
  sum (map cs_value (b_clear_inputs self))
  + sum (map (fun s => n_value (is_note s)) (b_inputs self))
  = sum (map os_value (b_outputs self)) ->
  exists tx rng',
    build ec crypto self rng = (Return tx, rng')
    /\ Transaction_check_value_commits ec crypto tx = true.
Proof.
  intros Hne Hval.
  destruct (build_spec Rng Sig ec crypto self rng
              (order_nonzero _ _ laws) Hne)
    as [tx [rng' [Hb [HFc [HFi [HFo Hbl]]]]]].
  exists tx, rng'. split; [exact Hb|].
  exact (check_value_commits_built _ _ _ _ _ HFc HFi HFo Hbl Hval).
Qed.

End Balance.

Section RoundTrip.

Variables (Rng Sig : Type) (ec : Curve Rng) (crypto : Crypto Rng Sig).
Hypothesis laws : CommitLaws ec crypto.
Hypothesis signature_law : SignatureLaw ec crypto.

Lemma verify_clear_signatures_built (tb : Z) (data : bytes)
    (specs : list ClearInputSpec) (l : list (TxClearInput Sig)) :
  Forall2 (clear_signed ec crypto tb data) specs l ->
  verify_clear_signatures ec crypto data l = Return true.
Proof.
  induction 1 as [|s c specs l [(_ & _ & _ & Hpub) [r Hsig]] _ IH];
    cbn [verify_clear_signatures]; [reflexivity|].
  rewrite Hsig, Hpub, signature_law. exact IH.
Qed.

Lemma verify_input_signatures_built (tb : Z) (data : bytes)
    (specs : list InputSpec) (l : list (TxInput Sig)) :
  Forall2 (input_signed ec crypto tb data) specs l ->
  verify_input_signatures ec crypto data l = Return true.
Proof.
  induction 1 as [|s i specs l [[_ Hrev] [r Hsig]] _ IH];
    cbn [verify_input_signatures]; [reflexivity|].
  rewrite Hsig, Hrev. cbn [BurnProof_get_revealed br_signature_public].
  rewrite signature_law. exact IH.
Qed.

Lemma check_proofs_built (tb : Z) (data : bytes)
    (self : TransactionBuilder) (tx : Transaction Sig) :
  Forall2 (input_signed ec crypto tb data) (b_inputs self) (tx_inputs tx) ->
  Forall2 (output_built ec crypto tb) (b_outputs self) (tx_outputs tx) ->
  Forall (fun s => In (note_coin ec crypto (is_secret s) (is_note s))
                      (is_all_coins s))
         (b_inputs self) ->
  Transaction_check_proofs ec crypto tx = true.
Proof.
  intros HFi HFo Hcoins. unfold Transaction_check_proofs.
  apply andb_true_iff. split; apply Forall_forallb.
  - eapply Forall2_transfer; [| exact HFi | exact Hcoins].
    intros s i [[Hbp Hrev] _] Hin. cbn beta in Hin. rewrite Hrev.
    rewrite BurnProof_verify_member.
    + apply all_true, BurnProof_comparisons_self.
    + rewrite Hbp. exact Hin.
  - eapply (Forall2_transfer _ (fun _ => True)); [| exact HFo |].
    + intros s o (vb & serial & cb & _ & -> & _) _.
      apply MintProof_verify_self.
    + apply Forall_forall. trivial.
Qed.

(** C1: for specs with at least one output, whose shielded-input coins
    are members of their [all_coins], which share one token id and whose
    clear-input values plus note values add up to the output values,
    [build] returns a transaction on which [verify] returns
    [(True, None)]. *)
Theorem build_verify_round_trip (self : TransactionBuilder) (rng : Rng)
    (token : Z) :
  b_outputs self <> [] ->
  Forall (fun s => In (note_coin ec crypto (is_secret s) (is_note s))
                      (is_all_coins s))
         (b_inputs self) ->
  Forall (fun s => cs_token_id s = token) (b_clear_inputs self) ->
  Forall (fun s => n_token_id (is_note s) = token) (b_inputs self) ->
  Forall (fun s => os_token_id s = token) (b_outputs self) ->
  sum (map cs_value (b_clear_inputs self))
  + sum (map (fun s => n_value (is_note s)) (b_inputs self))
  = sum (map os_value (b_outputs self)) ->
  exists tx rng',
    build ec crypto self rng = (Return tx, rng')
    /\ Transaction_verify ec crypto tx = RetTuple true None.
Proof.
  intros Hne Hcoins Hc Hi Ho Hval.
  destruct (build_spec Rng Sig ec crypto self rng
              (order_nonzero _ _ laws) Hne)
    as [tx [rng' [Hb [HFc [HFi [HFo Hbl]]]]]].
  exists tx, rng'. split; [exact Hb|].
  unfold Transaction_verify.
  rewrite (check_value_commits_built _ _ _ _ laws _ _ _ _ _
             HFc HFi HFo Hbl Hval).
  rewrite (check_proofs_built _ _ _ _ HFi HFo Hcoins).
  destruct (token_commitments_built _ _ _ _ _ _ _ _ _
              HFc HFi HFo Hne Hc Hi Ho)
    as (output0 & others & _ & _ & _ & _ & Htok).
  rewrite Htok. cbn [negb].
  rewrite (verify_clear_signatures_built _ _ _ _ HFc).
  rewrite (verify_input_signatures_built _ _ _ _ HFi).
  reflexivity.
Qed.

End RoundTrip.

(** ** The small instance obeys the contract *)

Module ToyLaws.

Lemma point_mod (i : Z) : Toy.point (i mod Toy.order) = Toy.point i.
Proof. unfold Toy.point. now rewrite Z.mod_mod by discriminate. Qed.

Lemma point_congr (i j : Z) :
  i mod Toy.order = j mod Toy.order -> Toy.point i = Toy.point j.
Proof. intro H. now rewrite <- (point_mod i), H, point_mod. Qed.

Ltac table a b :=
  do 13 (destruct a as [|a];
         [do 13 (destruct b as [|b]; [vm_compute; reflexivity|]); lia|]);
  lia.

Lemma add_table (a b : nat) :
  (a < 13)%nat -> (b < 13)%nat ->
  Toy.add (Toy.point (Z.of_nat a)) (Toy.point (Z.of_nat b))
  = Toy.point (Z.of_nat a + Z.of_nat b).
Proof. intros Ha Hb. table a b. Qed.

Lemma sub_table (a b : nat) :
  (a < 13)%nat -> (b < 13)%nat ->
  Toy.add (Toy.point (Z.of_nat a)) (negate_y (Toy.point (Z.of_nat b)))
  = Toy.point (Z.of_nat a - Z.of_nat b).
Proof. intros Ha Hb. table a b. Qed.

Lemma residue (i : Z) :
  exists a, (a < 13)%nat /\ i mod Toy.order = Z.of_nat a.
Proof.
  pose proof (Z.mod_pos_bound i Toy.order eq_refl) as H.
  unfold Toy.order in *.
  exists (Z.to_nat (i mod 13)). split; lia.
Qed.

Lemma add_point (i j : Z) :
  Toy.add (Toy.point i) (Toy.point j) = Toy.point (i + j).
Proof.
  destruct (residue i) as [a [Ha Hi]], (residue j) as [b [Hb Hj]].
  rewrite <- (point_mod i), <- (point_mod j), Hi, Hj, (add_table a b Ha Hb).
  apply point_congr. rewrite <- Hi, <- Hj. symmetry. apply Zplus_mod.
Qed.

Lemma sub_point (i j : Z) :
  Toy.add (Toy.point i) (negate_y (Toy.point j)) = Toy.point (i - j).
Proof.
  destruct (residue i) as [a [Ha Hi]], (residue j) as [b [Hb Hj]].
  rewrite <- (point_mod i), <- (point_mod j), Hi, Hj, (sub_table a b Ha Hb).
  apply point_congr. rewrite <- Hi, <- Hj. symmetry. apply Zminus_mod.
Qed.

Lemma iter_add_point (n : nat) (i : Z) :
  Nat.iter n (Toy.add (Toy.point i)) (0, 1, 0) = Toy.point (Z.of_nat n * i).
Proof.
  induction n as [|n IH].
  - reflexivity.
  - rewrite Nat.iter_succ, IH, add_point. f_equal. lia.
Qed.

Lemma multiply_point (m i : Z) :
  Toy.multiply m (Toy.point i) = Toy.point (m * i).
Proof.
  unfold Toy.multiply. rewrite iter_add_point.
  destruct (residue m) as [a [Ha Hm]]. rewrite Hm, Nat2Z.id, <- Hm.
  apply point_congr. now rewrite Zmult_mod_idemp_l.
Qed.

Lemma commit_point (x y : Z) :
  pedersen_encrypt Toy.crypto x y Toy.curve = Toy.point (x + 5 * y).
Proof.
  change (Toy.add (Toy.multiply x (Toy.point 1))
                  (Toy.multiply y (Toy.point 5))
          = Toy.point (x + 5 * y)).
  rewrite !multiply_point, add_point. f_equal. lia.
Qed.

Lemma commit_laws : CommitLaws Toy.curve Toy.crypto.
Proof.
  constructor.
  - discriminate.
  - reflexivity.
  - intros a x b y. change (ec_add Toy.curve) with Toy.add.
    rewrite !commit_point, add_point. f_equal. lia.
  - intros a x b y. change (ec_add Toy.curve) with Toy.add.
    rewrite !commit_point, sub_point. f_equal. lia.
  - intros a x. rewrite !commit_point. apply point_congr.
    change (ec_order Toy.curve) with Toy.order.
    rewrite Zplus_mod, Zmult_mod_idemp_r, <- Zplus_mod.
    reflexivity.
Qed.

Lemma signature_law : SignatureLaw Toy.curve Toy.crypto.
Proof.
  intros message secret rng.
  set (k := fst (Toy.random_scalar rng)).
  set (R := Toy.multiply k (Toy.point 1)).
  set (e := Toy.challenge message R).
  change (point_eqb
            (Toy.multiply ((k + e * secret) mod Toy.order) (Toy.point 1))
            (Toy.add R (Toy.multiply e (Toy.multiply secret (Toy.point 1))))
          = true).
  unfold R. rewrite !multiply_point, add_point.
  apply point_eqb_eq, point_congr.
  rewrite !Z.mul_1_r, Z.mod_mod by discriminate. reflexivity.
Qed.

End ToyLaws.

(** ** The claims on sample transactions *)

Import Examples.

Ltac forall_list :=
  repeat first [ apply Forall_nil
               | apply Forall_cons; [vm_compute; auto 10 |] ].

Lemma build_verify_round_trip_witness :
  CommitLaws Toy.curve Toy.crypto
  /\ SignatureLaw Toy.curve Toy.crypto
  /\ b_outputs shielded_split <> []
  /\ Forall (fun s => In (note_coin Toy.curve Toy.crypto (is_secret s)
                                    (is_note s))
                         (is_all_coins s))
            (b_inputs shielded_split)
  /\ Forall (fun s => cs_token_id s = 3) (b_clear_inputs shielded_split)
  /\ Forall (fun s => n_token_id (is_note s) = 3) (b_inputs shielded_split)
  /\ Forall (fun s => os_token_id s = 3) (b_outputs shielded_split)
  /\ sum (map cs_value (b_clear_inputs shielded_split))
     + sum (map (fun s => n_value (is_note s)) (b_inputs shielded_split))
     = sum (map os_value (b_outputs shielded_split))
  /\ exists tx rng',
       build Toy.curve Toy.crypto shielded_split 42 = (Return tx, rng')
       /\ Transaction_verify Toy.curve Toy.crypto tx = RetTuple true None.
Proof.
  assert (Hc : Forall (fun s => cs_token_id s = 3)
                      (b_clear_inputs shielded_split)) by forall_list.
  assert (Hi : Forall (fun s => n_token_id (is_note s) = 3)
                      (b_inputs shielded_split)) by forall_list.
  assert (Ho : Forall (fun s => os_token_id s = 3)
                      (b_outputs shielded_split)) by forall_list.
  assert (Hne : b_outputs shielded_split <> []) by (vm_compute; discriminate).
  assert (Hcoins : Forall (fun s => In (note_coin Toy.curve Toy.crypto
                                          (is_secret s) (is_note s))
                                       (is_all_coins s))
                          (b_inputs shielded_split)) by forall_list.
  assert (Hval : sum (map cs_value (b_clear_inputs shielded_split))
                 + sum (map (fun s => n_value (is_note s))
                            (b_inputs shielded_split))
                 = sum (map os_value (b_outputs shielded_split)))
    by reflexivity.
  split; [exact ToyLaws.commit_laws|].
  split; [exact ToyLaws.signature_law|].
  split; [exact Hne|]. split; [exact Hcoins|].
  split; [exact Hc|]. split; [exact Hi|]. split; [exact Ho|].
  split; [exact Hval|].
  exact (build_verify_round_trip Z Toy.Signature Toy.curve Toy.crypto
           ToyLaws.commit_laws ToyLaws.signature_law shielded_split 42 3
           Hne Hcoins Hc Hi Ho Hval).
Defined.

(** C2, counterexample: ten in, eleven out; [build] returns a
    transaction whose value commitments do not sum to the identity. *)
Lemma imbalanced_build_fails_value_gate :
  fst (build Toy.curve Toy.crypto imbalanced 42) = Return (built imbalanced)
  /\ b_outputs imbalanced <> []
  /\ Transaction_check_value_commits Toy.curve Toy.crypto (built imbalanced)
     = false.
Proof.
  split; [vm_compute; reflexivity|].
  split; [vm_compute; discriminate | vm_compute; reflexivity].
Qed.

Lemma build_value_commits_balance_witness :
  CommitLaws Toy.curve Toy.crypto
  /\ b_outputs clear_to_shielded <> []
  /\ sum (map cs_value (b_clear_inputs clear_to_shielded))
     + sum (map (fun s => n_value (is_note s)) (b_inputs clear_to_shielded))
     = sum (map os_value (b_outputs clear_to_shielded))
  /\ exists tx rng',
       build Toy.curve Toy.crypto clear_to_shielded 42 = (Return tx, rng')
       /\ Transaction_check_value_commits Toy.curve Toy.crypto tx = true.
Proof.
  assert (Hne : b_outputs clear_to_shielded <> [])
    by (vm_compute; discriminate).
  split; [exact ToyLaws.commit_laws|].
  split; [exact Hne|]. split; [reflexivity|].
  exact (build_value_commits_balance Z Toy.Signature Toy.curve Toy.crypto
           ToyLaws.commit_laws clear_to_shielded 42 Hne eq_refl).
Defined.

Lemma build_token_uniform_witness :
  ec_order Toy.curve <> 0
  /\ b_outputs shielded_split <> []
  /\ Forall (fun s => cs_token_id s = 3) (b_clear_inputs shielded_split)
  /\ Forall (fun s => n_token_id (is_note s) = 3) (b_inputs shielded_split)
  /\ Forall (fun s => os_token_id s = 3) (b_outputs shielded_split)
  /\ exists tx rng' output0 others,
       build Toy.curve Toy.crypto shielded_split 42 = (Return tx, rng')
       /\ tx_outputs tx = output0 :: others
       /\ Forall (fun c =>
                    pedersen_encrypt Toy.crypto (ci_token_id c)
                                     (ci_token_blind c) Toy.curve
                    = mr_token_commit (to_revealed output0))
                 (tx_clear_inputs tx)
       /\ Forall (fun i => br_token_commit (ti_revealed i)
                           = mr_token_commit (to_revealed output0))
                 (tx_inputs tx)
       /\ Forall (fun o => mr_token_commit (to_revealed o)
                           = mr_token_commit (to_revealed output0))
                 (tx_outputs tx)
       /\ Transaction_verify_token_commitments Toy.curve Toy.crypto tx
          = Return true.
Proof.
  assert (Hq : ec_order Toy.curve <> 0) by (vm_compute; discriminate).
  assert (Hne : b_outputs shielded_split <> []) by (vm_compute; discriminate).
  assert (Hc : Forall (fun s => cs_token_id s = 3)
                      (b_clear_inputs shielded_split)) by forall_list.
  assert (Hi : Forall (fun s => n_token_id (is_note s) = 3)
                      (b_inputs shielded_split)) by forall_list.
  assert (Ho : Forall (fun s => os_token_id s = 3)
                      (b_outputs shielded_split)) by forall_list.
  repeat (split; [assumption|]).
  exact (build_token_uniform Z Toy.Signature Toy.curve Toy.crypto
           shielded_split 42 3 Hq Hne Hc Hi Ho).
Defined.

(** C4, at a transaction that passes the first three gates and carries a
    clear-input signature made under another key: [verify] returns the bare
    [False] of its signature loop, not a pair. *)
Theorem verify_bad_signature_returns_bare_false :
  Transaction_check_value_commits Toy.curve Toy.crypto resigned = true
  /\ Transaction_check_proofs Toy.curve Toy.crypto resigned = true
  /\ Transaction_verify_token_commitments Toy.curve Toy.crypto resigned
     = Return true
  /\ verify_clear_signatures Toy.curve Toy.crypto (partial_encode resigned)
       (tx_clear_inputs resigned) = Return false
  /\ Transaction_verify Toy.curve Toy.crypto resigned = RetBool false
  /\ forall ok reason,
       Transaction_verify Toy.curve Toy.crypto resigned
       <> RetTuple ok reason.
Proof.
  assert (E : Transaction_verify Toy.curve Toy.crypto resigned
              = RetBool false) by (vm_compute; reflexivity).
  repeat split; try (vm_compute; reflexivity).
  intros ok reason. rewrite E. discriminate.
Qed.

(** C5, counterexample: the note spent by the split carries the token
    blind 11, the burn proof built for it carries the token blind 1 that
    [build] sampled. *)
Lemma burn_proof_token_blind_not_from_note :
  fst (build Toy.curve Toy.crypto shielded_split 42)
  = Return (built shielded_split)
  /\ map (fun s => n_token_blind (is_note s)) (b_inputs shielded_split) = [11]
  /\ map (fun i => bp_token_blind (ti_burn_proof i))
         (tx_inputs (built shielded_split)) = [1].
Proof. repeat split; vm_compute; reflexivity. Qed.

Lemma build_burn_proof_blinds_witness :
  ec_order Toy.curve <> 0
  /\ b_outputs shielded_split <> []
  /\ exists tx rng',
       build Toy.curve Toy.crypto shielded_split 42 = (Return tx, rng')
       /\ Forall2
            (fun spec input =>
               ti_burn_proof input
               = burn_proof_of (fst (ec_random_scalar Toy.curve 42)) spec
                   (bp_signature_secret (ti_burn_proof input))
               /\ bp_value_blind (ti_burn_proof input)
                  = n_value_blind (is_note spec)
               /\ bp_token_blind (ti_burn_proof input)
                  = fst (ec_random_scalar Toy.curve 42))
            (b_inputs shielded_split) (tx_inputs tx)
       /\ Forall (fun c => ci_token_blind c
                           = fst (ec_random_scalar Toy.curve 42))
                 (tx_clear_inputs tx)
       /\ Forall (fun o => n_token_blind (to_enc_note o)
                           = fst (ec_random_scalar Toy.curve 42))
                 (tx_outputs tx).
Proof.
  assert (Hq : ec_order Toy.curve <> 0) by (vm_compute; discriminate).
  assert (Hne : b_outputs shielded_split <> []) by (vm_compute; discriminate).
  repeat (split; [assumption|]).
  exact (build_burn_proof_blinds Z Toy.Signature Toy.curve Toy.crypto
           shielded_split 42 Hq Hne).
Defined.

(** C6, counterexample: two transactions that differ in their clear
    inputs and in their outputs have the same encoding. *)
Lemma partial_encode_ignores_fields :
  map ci_value (tx_clear_inputs (built clear_to_shielded))
  <> map ci_value (tx_clear_inputs no_outputs)
  /\ tx_outputs (built clear_to_shielded) <> tx_outputs no_outputs
  /\ partial_encode (built clear_to_shielded) = partial_encode no_outputs.
Proof.
  split; [vm_compute; discriminate|].
  split; [vm_compute; discriminate | reflexivity].
Qed.

Lemma foreign_note_rejected_witness :
  ~ In (BurnProof_coin Toy.curve Toy.crypto foreign_burn_proof)
       (bp_all_coins foreign_burn_proof)
  /\ In foreign_input (tx_inputs (built foreign_note))
  /\ Transaction_check_value_commits Toy.curve Toy.crypto
       (built foreign_note) = true
  /\ (forall claim,
        BurnProof_verify Toy.curve Toy.crypto foreign_burn_proof claim
        = false)
  /\ Transaction_verify Toy.curve Toy.crypto (built foreign_note)
     = RetTuple false (Some "proofs failed to verify"%string).
Proof.
  assert (Hn : ~ In (BurnProof_coin Toy.curve Toy.crypto foreign_burn_proof)
                    (bp_all_coins foreign_burn_proof)).
  { vm_compute. intros [H|[]]. discriminate H. }
  assert (Hin : In foreign_input (tx_inputs (built foreign_note)))
    by (vm_compute; left; reflexivity).
  assert (Hval : Transaction_check_value_commits Toy.curve Toy.crypto
                   (built foreign_note) = true)
    by (vm_compute; reflexivity).
  split; [exact Hn|]. split; [exact Hin|]. split; [exact Hval|].
  destruct (foreign_note_rejected Z Toy.Signature Toy.curve Toy.crypto
              foreign_burn_proof Hn) as [Hclaim Htx].
  split; [exact Hclaim|].
  exact (Htx (built foreign_note) foreign_input Hin eq_refl Hval).
Defined.

Lemma build_output_value_blinds_witness :
  ec_order Toy.curve <> 0
  /\ b_outputs shielded_split <> []
  /\ exists tx rng',
       build Toy.curve Toy.crypto shielded_split 42 = (Return tx, rng')
       /\ List.length (tx_outputs tx) = List.length (b_outputs shielded_split)
       /\ last (output_value_blinds (tx_outputs tx)) 0
          = (sum (map ci_value_blind (tx_clear_inputs tx))
             + sum (map (fun s => n_value_blind (is_note s))
                        (b_inputs shielded_split))
             - sum (removelast (output_value_blinds (tx_outputs tx))))
            mod ec_order Toy.curve
       /\ forall i,
            (i < List.length (b_outputs shielded_split) - 1)%nat ->
            nth i (output_value_blinds (tx_outputs tx)) 0
            = fst (ec_random_scalar Toy.curve
                     (Nat.iter i (output_draws Toy.curve)
                        (rng_at_outputs Toy.curve shielded_split 42))).
Proof.
  assert (Hq : ec_order Toy.curve <> 0) by (vm_compute; discriminate).
  assert (Hne : b_outputs shielded_split <> []) by (vm_compute; discriminate).
  repeat (split; [assumption|]).
  exact (build_output_value_blinds Z Toy.Signature Toy.curve Toy.crypto
           shielded_split 42 Hq Hne).
Defined.

(** C9, counterexample: a transaction without outputs whose value
    commitments do not balance gets the ordinary result of the value
    gate, not an empty-outputs error. *)
Lemma no_outputs_reports_value_gate :
  tx_outputs no_outputs = []
  /\ Transaction_verify Toy.curve Toy.crypto no_outputs
     = RetTuple false (Some "value commits do not match"%string).
Proof. split; [reflexivity | vm_compute; reflexivity]. Qed.

Lemma verify_without_outputs_witness :
  tx_outputs empty_tx = []
  /\ Transaction_verify Toy.curve Toy.crypto empty_tx
     = (if negb (Transaction_check_value_commits Toy.curve Toy.crypto
                   empty_tx)
        then RetTuple false (Some "value commits do not match"%string)
        else if negb (Transaction_check_proofs Toy.curve Toy.crypto empty_tx)
        then RetTuple false (Some "proofs failed to verify"%string)
        else Raised AssertionError)
  /\ Transaction_verify Toy.curve Toy.crypto empty_tx <> RetTuple true None.
Proof.
  split; [reflexivity|].
  exact (verify_without_outputs Z Toy.Signature Toy.curve Toy.crypto
           empty_tx eq_refl).
Defined.

(** * Further properties of the proof objects and of [verify] *)

Section Verifier.

Variables (Rng Sig : Type) (ec : Curve Rng) (crypto : Crypto Rng Sig).

Lemma coins_eqb_eq (a b : list Z) : coins_eqb a b = true <-> a = b.
Proof.
  revert b. induction a as [|x a IH]; intros [|y b]; cbn;
    try (split; (reflexivity || discriminate)).
  rewrite andb_true_iff, Z.eqb_eq, IH. split.
  - intros [-> ->]. reflexivity.
  - intro E. inversion E. auto.
Qed.

Lemma forallb_Forall {A} (f : A -> bool) (l : list A) :
  forallb f l = true <-> Forall (fun x => f x = true) l.
Proof. rewrite forallb_forall, Forall_forall. reflexivity. Qed.

Lemma mint_verify_accepts (mp : MintProof) (claim : MintRevealed) :
  MintProof_verify ec crypto mp claim = true
  <-> claim = MintProof_get_revealed ec crypto mp.
Proof.
  unfold MintProof_verify. cbn [forallb].
  rewrite andb_true_r, !andb_true_iff, Z.eqb_eq, !point_eqb_eq.
  destruct (MintProof_get_revealed ec crypto mp) as [c v t].
  destruct claim as [c' v' t']. cbn. split.
  - intros (-> & -> & ->). reflexivity.
  - intro E. inversion E. auto.
Qed.

(** X1: a mint proof accepts exactly the revealed values it computes itself:
    any change of the coin or of a commitment in the claim is refused. *)
Theorem MintProof_verify_iff (mp : MintProof) (claim : MintRevealed) :
  MintProof_verify ec crypto mp claim = true
  <-> claim = MintProof_get_revealed ec crypto mp.
Proof. exact (mint_verify_accepts mp claim). Qed.

Lemma burn_verify_accepts (bp : BurnProof) (claim : BurnRevealed) :
  BurnProof_verify ec crypto bp claim = true
  <-> In (BurnProof_coin ec crypto bp) (bp_all_coins bp)
      /\ claim = BurnProof_get_revealed ec crypto bp.
Proof.
  destruct (in_dec Z.eq_dec (BurnProof_coin ec crypto bp) (bp_all_coins bp))
    as [Hin|Hn].
  - rewrite (BurnProof_verify_member _ _ _ _ _ _ Hin).
    unfold BurnProof_comparisons. cbn [forallb].
    rewrite andb_true_r, !andb_true_iff, Z.eqb_eq, !point_eqb_eq,
      coins_eqb_eq.
    destruct (BurnProof_get_revealed ec crypto bp) as [n v t a s].
    destruct claim as [n' v' t' a' s']. cbn. split.
    + intros (-> & -> & -> & -> & ->). auto.
    + intros [_ E]. inversion E. auto.
  - rewrite (BurnProof_verify_foreign _ _ _ _ _ _ Hn). split.
    + discriminate.
    + intros [Hin _]. contradiction.
Qed.

(** X2: a burn proof accepts a claim exactly when the coin recomputed from
    its witness is in [all_coins] and the claim is the revealed view it
    computes itself. *)
Theorem BurnProof_verify_iff (bp : BurnProof) (claim : BurnRevealed) :
  BurnProof_verify ec crypto bp claim = true
  <-> In (BurnProof_coin ec crypto bp) (bp_all_coins bp)
      /\ claim = BurnProof_get_revealed ec crypto bp.
Proof. exact (burn_verify_accepts bp claim). Qed.

Lemma check_proofs_iff (tx : Transaction Sig) :
  Transaction_check_proofs ec crypto tx = true
  <-> Forall (fun i =>
                In (BurnProof_coin ec crypto (ti_burn_proof i))
                   (bp_all_coins (ti_burn_proof i))
                /\ ti_revealed i
                   = BurnProof_get_revealed ec crypto (ti_burn_proof i))
             (tx_inputs tx)
      /\ Forall (fun o =>
                   to_revealed o
                   = MintProof_get_revealed ec crypto (to_mint_proof o))
                (tx_outputs tx).
Proof.
  unfold Transaction_check_proofs.
  rewrite andb_true_iff, !forallb_Forall.
  split; intros [Hi Ho]; split.
  - eapply Forall_impl; [|exact Hi]. intros i. apply burn_verify_accepts.
  - eapply Forall_impl; [|exact Ho]. intros o. apply mint_verify_accepts.
  - eapply Forall_impl; [|exact Hi]. intros i. apply burn_verify_accepts.
  - eapply Forall_impl; [|exact Ho]. intros o. apply mint_verify_accepts.
Qed.

(** X3: a transaction with balanced value commitments in which the revealed
    view of a shielded input or of an output is not the one its proof
    computes is rejected at the proof gate. *)
Theorem tampered_revealed_rejected (tx : Transaction Sig) :
  Exists (fun i => ti_revealed i
                   <> BurnProof_get_revealed ec crypto (ti_burn_proof i))
         (tx_inputs tx)
  \/ Exists (fun o => to_revealed o
                      <> MintProof_get_revealed ec crypto (to_mint_proof o))
            (tx_outputs tx) ->
  Transaction_check_value_commits ec crypto tx = true ->
  Transaction_verify ec crypto tx
  = RetTuple false (Some "proofs failed to verify"%string).
Proof.
  intros Htamper Hval. apply verify_gate_proofs; [exact Hval|].
  destruct (Transaction_check_proofs ec crypto tx) eqn:E; [|reflexivity].
  apply check_proofs_iff in E. destruct E as [Hi Ho].
  rewrite Forall_forall in Hi, Ho.
  destruct Htamper as [Ht|Ht]; apply Exists_exists in Ht;
    destruct Ht as [x [Hin Hx]]; exfalso; apply Hx.
  - apply (Hi x Hin).
  - apply (Ho x Hin).
Qed.

Lemma verify_token_commitments_iff (tx : Transaction Sig) :
  Transaction_verify_token_commitments ec crypto tx = Return true
  <-> exists output0 others,
        tx_outputs tx = output0 :: others
        /\ Forall (fun c =>
                     pedersen_encrypt crypto (ci_token_id c)
                                      (ci_token_blind c) ec
                     = mr_token_commit (to_revealed output0))
                  (tx_clear_inputs tx)
        /\ Forall (fun i => br_token_commit (ti_revealed i)
                            = mr_token_commit (to_revealed output0))
                  (tx_inputs tx)
        /\ Forall (fun o => mr_token_commit (to_revealed o)
                            = mr_token_commit (to_revealed output0))
                  (tx_outputs tx).
Proof.
  unfold Transaction_verify_token_commitments. cbv zeta.
  destruct (tx_outputs tx) as [|output0 others].
  - split; [discriminate|]. intros (? & ? & E & _). discriminate E.
  - split.
    + intro E. injection E as E.
      apply andb_true_iff in E. destruct E as [E Ho].
      apply andb_true_iff in E. destruct E as [Hc Hi].
      apply forallb_Forall in Hc, Hi.
      apply (proj1 (forallb_Forall
                      (fun o => point_eqb (mr_token_commit (to_revealed o))
                                  (mr_token_commit (to_revealed output0)))
                      (output0 :: others))) in Ho.
      exists output0, others. split; [reflexivity|].
      repeat split; (eapply Forall_impl; [|eassumption]);
        intros x Hx; now apply point_eqb_eq.
    + intros (o0 & rest & E & Hc & Hi & Ho). injection E as <- <-.
      f_equal. apply andb_true_iff. split; [apply andb_true_iff; split|];
        apply forallb_Forall; (eapply Forall_impl; [|eassumption]);
        intros x Hx; now apply point_eqb_eq.
Qed.

Lemma verify_clear_signatures_iff (data : bytes)
    (l : list (TxClearInput Sig)) :
  verify_clear_signatures ec crypto data l = Return true
  <-> Forall (fun c => exists s,
                ci_signature c = Some s
                /\ verify crypto data s (ci_signature_public c) ec = true) l.
Proof.
  induction l as [|c l IH]; cbn [verify_clear_signatures].
  - split; [constructor | reflexivity].
  - destruct (ci_signature c) as [s|] eqn:Es.
    + destruct (verify crypto data s (ci_signature_public c) ec) eqn:Ev;
        cbn [negb].
      * rewrite IH. split.
        -- intro H. constructor; [exists s; auto | exact H].
        -- intro H. now inversion H.
      * split; [discriminate|]. intro H. inversion H as [|? ? [s' [E1 E2]]].
        rewrite Es in E1. injection E1 as <-. congruence.
    + split; [discriminate|]. intro H. inversion H as [|? ? [s' [E1 _]]].
      congruence.
Qed.

Lemma verify_input_signatures_iff (data : bytes) (l : list (TxInput Sig)) :
  verify_input_signatures ec crypto data l = Return true
  <-> Forall (fun i => exists s,
                ti_signature i = Some s
                /\ verify crypto data s
                     (br_signature_public (ti_revealed i)) ec = true) l.
Proof.
  induction l as [|i l IH]; cbn [verify_input_signatures].
  - split; [constructor | reflexivity].
  - destruct (ti_signature i) as [s|] eqn:Es.
    + destruct (verify crypto data s
                  (br_signature_public (ti_revealed i)) ec) eqn:Ev;
        cbn [negb].
      * rewrite IH. split.
        -- intro H. constructor; [exists s; auto | exact H].
        -- intro H. now inversion H.
      * split; [discriminate|]. intro H. inversion H as [|? ? [s' [E1 E2]]].
        rewrite Es in E1. injection E1 as <-. congruence.
    + split; [discriminate|]. intro H. inversion H as [|? ? [s' [E1 _]]].
      congruence.
Qed.

Lemma verify_clear_signatures_raises (data : bytes)
    (l : list (TxClearInput Sig)) (e : pyexn) :
  verify_clear_signatures ec crypto data l = Raise e -> e = AttributeError.
Proof.
  induction l as [|c l IH]; cbn [verify_clear_signatures]; [discriminate|].
  destruct (ci_signature c); [|congruence].
  destruct (negb _); [discriminate | exact IH].
Qed.

Lemma verify_input_signatures_raises (data : bytes)
    (l : list (TxInput Sig)) (e : pyexn) :
  verify_input_signatures ec crypto data l = Raise e -> e = AttributeError.
Proof.
  induction l as [|i l IH]; cbn [verify_input_signatures]; [discriminate|].
  destruct (ti_signature i); [|congruence].
  destruct (negb _); [discriminate | exact IH].
Qed.

End Verifier.

Section Verdicts.

Variables (Rng Sig : Type) (ec : Curve Rng) (crypto : Crypto Rng Sig).

Lemma verify_token_commitments_raises (tx : Transaction Sig) (e : pyexn) :
  Transaction_verify_token_commitments ec crypto tx = Raise e
  <-> e = AssertionError /\ tx_outputs tx = [].
Proof.
  unfold Transaction_verify_token_commitments.
  destruct (tx_outputs tx).
  - split; [intro E; injection E as <-; auto | intros [-> _]; reflexivity].
  - split; [discriminate | intros [_ E]; discriminate E].
Qed.

Lemma verify_accepts_gates (tx : Transaction Sig) :
  Transaction_verify ec crypto tx = RetTuple true None
  <-> Transaction_check_value_commits ec crypto tx = true
      /\ Transaction_check_proofs ec crypto tx = true
      /\ Transaction_verify_token_commitments ec crypto tx = Return true
      /\ verify_clear_signatures ec crypto (partial_encode tx)
           (tx_clear_inputs tx) = Return true
      /\ verify_input_signatures ec crypto (partial_encode tx)
           (tx_inputs tx) = Return true.
Proof.
  unfold Transaction_verify.
  destruct (Transaction_check_value_commits ec crypto tx);
    destruct (Transaction_check_proofs ec crypto tx); cbn [negb];
    try (split; [discriminate | intros (? & ? & _); discriminate]).
  destruct (Transaction_verify_token_commitments ec crypto tx) as [[|]|];
    try (split; [discriminate | intros (_ & _ & ? & _); discriminate]).
  cbv zeta.
  destruct (verify_clear_signatures ec crypto (partial_encode tx)
              (tx_clear_inputs tx)) as [[|]|];
    try (split; [discriminate | intros (_ & _ & _ & ? & _); discriminate]).
  destruct (verify_input_signatures ec crypto (partial_encode tx)
              (tx_inputs tx)) as [[|]|];
    try (split; [discriminate | intros (_ & _ & _ & _ & ?); discriminate]).
  split; auto.
Qed.

(** X4: [verify] returns [(True, None)] exactly on the transactions that
    satisfy all of: the value commitments sum to the identity; every burn
    proof has its coin in [all_coins] and every proof reveals what its
    witness computes; there is a first output and every token commitment
    equals that output's; every member carries a signature that verifies
    over the encoding under the member's public key. *)
Theorem verify_accepts_iff (tx : Transaction Sig) :
  Transaction_verify ec crypto tx = RetTuple true None
  <-> Transaction_check_value_commits ec crypto tx = true
      /\ (Forall (fun i =>
                    In (BurnProof_coin ec crypto (ti_burn_proof i))
                       (bp_all_coins (ti_burn_proof i))
                    /\ ti_revealed i
                       = BurnProof_get_revealed ec crypto (ti_burn_proof i))
                 (tx_inputs tx)
          /\ Forall (fun o =>
                       to_revealed o
                       = MintProof_get_revealed ec crypto (to_mint_proof o))
                    (tx_outputs tx))
      /\ (exists output0 others,
            tx_outputs tx = output0 :: others
            /\ Forall (fun c =>
                         pedersen_encrypt crypto (ci_token_id c)
                                          (ci_token_blind c) ec
                         = mr_token_commit (to_revealed output0))
                      (tx_clear_inputs tx)
            /\ Forall (fun i => br_token_commit (ti_revealed i)
                                = mr_token_commit (to_revealed output0))
                      (tx_inputs tx)
            /\ Forall (fun o => mr_token_commit (to_revealed o)
                                = mr_token_commit (to_revealed output0))
                      (tx_outputs tx))
      /\ Forall (fun c => exists s,
                   ci_signature c = Some s
                   /\ verify crypto (partial_encode tx) s
                        (ci_signature_public c) ec = true)
                (tx_clear_inputs tx)
      /\ Forall (fun i => exists s,
                   ti_signature i = Some s
                   /\ verify crypto (partial_encode tx) s
                        (br_signature_public (ti_revealed i)) ec = true)
                (tx_inputs tx).
Proof.
  rewrite verify_accepts_gates, check_proofs_iff,
    verify_token_commitments_iff, verify_clear_signatures_iff,
    verify_input_signatures_iff.
  reflexivity.
Qed.

(** X5: [verify] raises [AssertionError] exactly on the transactions without
    outputs that pass the value-commit gate and the proof gate. *)
Theorem verify_assertion_iff (tx : Transaction Sig) :
  Transaction_verify ec crypto tx = Raised AssertionError
  <-> Transaction_check_value_commits ec crypto tx = true
      /\ Transaction_check_proofs ec crypto tx = true
      /\ tx_outputs tx = [].
Proof.
  unfold Transaction_verify.
  destruct (Transaction_check_value_commits ec crypto tx);
    destruct (Transaction_check_proofs ec crypto tx); cbn [negb];
    try (split; [discriminate | intros (? & ? & _); discriminate]).
  destruct (Transaction_verify_token_commitments ec crypto tx)
    as [[|]|e] eqn:Et.
  - assert (Hne : tx_outputs tx <> []).
    { apply verify_token_commitments_iff in Et.
      destruct Et as (? & ? & -> & _). discriminate. }
    cbv zeta.
    destruct (verify_clear_signatures ec crypto (partial_encode tx)
                (tx_clear_inputs tx)) as [[|]|e1] eqn:Ec.
    + destruct (verify_input_signatures ec crypto (partial_encode tx)
                  (tx_inputs tx)) as [[|]|e2] eqn:Ei;
        try (split; [discriminate | intros (_ & _ & ?); contradiction]).
      apply verify_input_signatures_raises in Ei. subst e2.
      split; [discriminate | intros (_ & _ & ?); contradiction].
    + split; [discriminate | intros (_ & _ & ?); contradiction].
    + apply verify_clear_signatures_raises in Ec. subst e1.
      split; [discriminate | intros (_ & _ & ?); contradiction].
  - split; [discriminate|]. intros (_ & _ & Ho).
    unfold Transaction_verify_token_commitments in Et.
    rewrite Ho in Et. discriminate Et.
  - apply verify_token_commitments_raises in Et. destruct Et as [-> Ho].
    split; auto.
Qed.

(** X6: whatever the transaction, [verify] ends in one of seven ways: one of
    the three reasoned failures, the bare [False] of the signature loops,
    [(True, None)], an [AssertionError] or an [AttributeError]. It never
    returns a bare [True], a success with a reason or a failure pair
    without one. *)
Theorem verify_result_shapes (tx : Transaction Sig) :
  In (Transaction_verify ec crypto tx)
     [ RetTuple false (Some "value commits do not match"%string);
       RetTuple false (Some "proofs failed to verify"%string);
       RetTuple false (Some "token ID mismatch"%string);
       RetBool false;
       RetTuple true None;
       Raised AssertionError;
       Raised AttributeError ].
Proof.
  unfold Transaction_verify.
  destruct (Transaction_check_value_commits ec crypto tx); cbn [negb];
    [|cbn; auto].
  destruct (Transaction_check_proofs ec crypto tx); cbn [negb];
    [|cbn; auto].
  destruct (Transaction_verify_token_commitments ec crypto tx)
    as [[|]|e] eqn:Et.
  - cbv zeta.
    destruct (verify_clear_signatures ec crypto (partial_encode tx)
                (tx_clear_inputs tx)) as [[|]|e1] eqn:Ec.
    + destruct (verify_input_signatures ec crypto (partial_encode tx)
                  (tx_inputs tx)) as [[|]|e2] eqn:Ei; [cbn; auto 10 ..|].
      apply verify_input_signatures_raises in Ei. subst e2. cbn; auto 10.
    + cbn; auto 10.
    + apply verify_clear_signatures_raises in Ec. subst e1. cbn; auto 10.
  - cbn; auto.
  - apply verify_token_commitments_raises in Et. destruct Et as [-> _].
    cbn; auto 10.
Qed.

End Verdicts.

(** * Further properties of [build] *)

Section Builder.

Variables (Rng Sig : Type) (ec : Curve Rng) (crypto : Crypto Rng Sig).

Lemma build_without_outputs (self : TransactionBuilder) (rng : Rng) :
  b_outputs self = [] ->
  build ec crypto self rng
  = (Raise AssertionError, rng_at_outputs ec self rng).
Proof.
  intro Ho. unfold build, rng_at_outputs.
  rewrite !after_scalars_add.
  change (after_scalars ec 1 rng) with (snd (ec_random_scalar ec rng)).
  unfold bind at 1, random_scalar at 1.
  destruct (ec_random_scalar ec rng) as [token_blind rng0]. cbn [fst snd].
  destruct (build_clear_inputs_spec Rng Sig ec token_blind
              (b_clear_inputs self) [] rng0) as [clear [Hc _]].
  unfold bind at 1. rewrite Hc. cbn [app].
  destruct (build_inputs_spec Rng Sig ec crypto token_blind
              (b_inputs self) [] [] []
              (after_scalars ec (List.length (b_clear_inputs self)) rng0))
    as [inputs [Hi _]].
  unfold bind at 1. rewrite Hi. cbn [app].
  unfold bind at 1. rewrite Ho. reflexivity.
Qed.

(** X7: with a non-zero scalar-field order, [build] returns a transaction
    exactly when the builder holds at least one output; without outputs it
    raises [AssertionError], after the token blind, the clear-input value
    blinds and the signature secrets have been drawn. *)
Theorem build_returns_iff_outputs (self : TransactionBuilder) (rng : Rng) :
  ec_order ec <> 0 ->
  ((exists tx rng', build ec crypto self rng = (Return tx, rng'))
   <-> b_outputs self <> [])
  /\ (b_outputs self = [] ->
      build ec crypto self rng
      = (Raise AssertionError, rng_at_outputs ec self rng)).
Proof.
  intro Hq. split; [|apply build_without_outputs]. split.
  - intros (tx & rng' & Hb) Ho.
    rewrite (build_without_outputs self rng Ho) in Hb. discriminate Hb.
  - intro Hne.
    destruct (build_spec Rng Sig ec crypto self rng Hq Hne)
      as (tx & rng' & Hb & _).
    exists tx, rng'. exact Hb.
Qed.

(** X8: with a positive order, [compute_remainder_blind] returns a scalar of
    [[0, order)] that closes the balance: the input blinds minus the
    output blinds, the returned one appended, are 0 modulo the order. *)
Theorem compute_remainder_blind_closes
    (clear_inputs : list (TxClearInput Sig))
    (input_blinds output_blinds : list Z) :
  0 < ec_order ec ->
  exists r,
    compute_remainder_blind ec clear_inputs input_blinds output_blinds
    = Return r
    /\ 0 <= r < ec_order ec
    /\ (sum (map ci_value_blind clear_inputs) + sum input_blinds
        - sum (output_blinds ++ [r])) mod ec_order ec = 0.
Proof.
  intro Hq. unfold compute_remainder_blind, py_mod.
  destruct (ec_order ec =? 0) eqn:E; [apply Z.eqb_eq in E; lia|].
  eexists. split; [reflexivity|]. split.
  - apply Z.mod_pos_bound. exact Hq.
  - rewrite sum_app, sum_cons, Z.add_0_l. change (sum []) with 0.
    set (t := sum (map ci_value_blind clear_inputs) + sum input_blinds).
    set (o := sum output_blinds).
    pose proof (Z.div_mod (t - o) (ec_order ec) ltac:(lia)) as Hd.
    replace (t - (o + ((t - o) mod ec_order ec + 0)))
      with ((t - o) / ec_order ec * ec_order ec) by lia.
    apply Z_mod_mult.
Qed.

(** X9: in a built transaction the value blinds balance: those of the clear
    inputs plus those of the spent notes minus those of the outputs are 0
    modulo the scalar-field order. *)
Theorem build_blinds_balance (self : TransactionBuilder) (rng : Rng) :
  ec_order ec <> 0 ->
  b_outputs self <> [] ->
  exists tx rng',
    build ec crypto self rng = (Return tx, rng')
    /\ (sum (map ci_value_blind (tx_clear_inputs tx))
        + sum (map (fun s => n_value_blind (is_note s)) (b_inputs self))
        - sum (output_value_blinds (tx_outputs tx))) mod ec_order ec = 0.
Proof.
  intros Hq Hne.
  destruct (build_spec Rng Sig ec crypto self rng Hq Hne)
    as (tx & rng' & Hb & _ & _ & _ & Hbl).
  exists tx, rng'. split; [exact Hb|].
  rewrite Hbl. unfold remainder_blind.
  rewrite sum_app, sum_cons. change (sum []) with 0.
  match goal with
  | |- (?t - (?o + ((?t - ?o) mod _ + 0))) mod _ = 0 =>
      pose proof (Z.div_mod (t - o) (ec_order ec) Hq) as Hd;
      replace (t - (o + ((t - o) mod ec_order ec + 0)))
        with ((t - o) / ec_order ec * ec_order ec) by lia
  end.
  apply Z_mod_mult.
Qed.

(** X10: [build] keeps the members in the order they were added and copies
    the public data of each spec: value, token id and public key
    [signature_secret * G] of a clear input; coin set of a shielded input;
    value, token id, [depends], [attrs] and recipient key of an output. *)
Theorem build_keeps_specs (self : TransactionBuilder) (rng : Rng) :
  ec_order ec <> 0 ->
  b_outputs self <> [] ->
  exists tx rng',
    build ec crypto self rng = (Return tx, rng')
    /\ map (fun c => (ci_value c, ci_token_id c, ci_signature_public c))
           (tx_clear_inputs tx)
       = map (fun s => (cs_value s, cs_token_id s,
                        ec_multiply ec (cs_signature_secret s) (ec_G ec)))
             (b_clear_inputs self)
    /\ map (fun i => br_all_coins (ti_revealed i)) (tx_inputs tx)
       = map is_all_coins (b_inputs self)
    /\ map (fun o => (n_value (to_enc_note o), n_token_id (to_enc_note o),
                      n_depends (to_enc_note o), n_attrs (to_enc_note o),
                      mp_public (to_mint_proof o)))
           (tx_outputs tx)
       = map (fun s => (os_value s, os_token_id s, os_depends s, os_attrs s,
                        os_public s))
             (b_outputs self).
Proof.
  intros Hq Hne.
  destruct (build_spec Rng Sig ec crypto self rng Hq Hne)
    as (tx & rng' & Hb & HFc & HFi & HFo & _).
  exists tx, rng'. split; [exact Hb|]. split; [|split]; symmetry.
  - eapply Forall2_map_eq; [|exact HFc].
    intros s c [(-> & -> & _ & ->) _]. reflexivity.
  - eapply Forall2_map_eq; [|exact HFi].
    intros s i [[Hbp ->] _]. rewrite Hbp. reflexivity.
  - eapply Forall2_map_eq; [|exact HFo].
    intros s o (vb & serial & cb & -> & _ & ->). reflexivity.
Qed.

(** X11: what a shielded input reveals does not depend on the randomness of
    [build]: the nullifier is [ff_hash(secret, serial)] and the value
    commitment is the commitment to the note's value under the note's own
    value blind, so two builds spending the same note reveal the same
    pair. *)
Theorem build_reveals_note_commitment (self : TransactionBuilder)
    (rng : Rng) :
  ec_order ec <> 0 ->
  b_outputs self <> [] ->
  exists tx rng',
    build ec crypto self rng = (Return tx, rng')
    /\ map (fun i => (br_nullifier (ti_revealed i),
                      br_value_commit (ti_revealed i)))
           (tx_inputs tx)
       = map (fun s => (ff_hash crypto (is_secret s) [n_serial (is_note s)],
                        pedersen_encrypt crypto (n_value (is_note s))
                          (n_value_blind (is_note s)) ec))
             (b_inputs self).
Proof.
  intros Hq Hne.
  destruct (build_spec Rng Sig ec crypto self rng Hq Hne)
    as (tx & rng' & Hb & _ & HFi & _ & _).
  exists tx, rng'. split; [exact Hb|]. symmetry.
  eapply Forall2_map_eq; [|exact HFi].
  intros s i [[Hbp ->] _]. rewrite Hbp. reflexivity.
Qed.

(** X12: the plaintext note attached to a built output opens that output: the
    revealed coin is the hash of the recipient key and the note's fields,
    and the revealed commitments are those of the note's value and token id
    under the note's blinds. *)
Theorem build_notes_open_outputs (self : TransactionBuilder) (rng : Rng) :
  ec_order ec <> 0 ->
  b_outputs self <> [] ->
  exists tx rng',
    build ec crypto self rng = (Return tx, rng')
    /\ Forall2
         (fun spec o =>
            let note := to_enc_note o in
            let '(public0, public1, _) := os_public spec in
            mr_coin (to_revealed o)
            = ff_hash crypto (ec_p ec)
                [public0; public1; n_value note; n_token_id note;
                 n_serial note; n_coin_blind note; n_depends note;
                 n_attrs note]
            /\ mr_value_commit (to_revealed o)
               = pedersen_encrypt crypto (n_value note) (n_value_blind note)
                                  ec
            /\ mr_token_commit (to_revealed o)
               = pedersen_encrypt crypto (n_token_id note)
                                  (n_token_blind note) ec)
         (b_outputs self) (tx_outputs tx).
Proof.
  intros Hq Hne.
  destruct (build_spec Rng Sig ec crypto self rng Hq Hne)
    as (tx & rng' & Hb & _ & _ & HFo & _).
  exists tx, rng'. split; [exact Hb|].
  eapply Forall2_impl; [|exact HFo].
  intros s o (vb & serial & cb & Hmp & -> & ->). rewrite Hmp.
  unfold MintProof_get_revealed. cbn.
  destruct (os_public s) as [[public0 public1] public2]. cbn. auto.
Qed.

End Builder.

(** * The verdict of [verify] on a built transaction *)

Section Verdict.

Variables (Rng Sig : Type) (ec : Curve Rng) (crypto : Crypto Rng Sig).

Lemma Forall2_transfer_back {A B} (R : A -> B -> Prop) (P : A -> Prop)
    (Q : B -> Prop) (l : list A) (l' : list B) :
  (forall x y, R x y -> Q y -> P x) ->
  Forall2 R l l' -> Forall Q l' -> Forall P l.
Proof.
  intros HRQ HF. induction HF as [|x y l l' Hxy _ IH]; intro HQ.
  - constructor.
  - inversion HQ; subst. constructor; eauto.
Qed.

Lemma Forall2_In_l {A B} (R : A -> B -> Prop) (l : list A) (l' : list B)
    (x : A) :
  Forall2 R l l' -> In x l -> exists y, In y l' /\ R x y.
Proof.
  induction 1 as [|a b l l' Hab _ IH]; intro Hin; [inversion Hin|].
  destruct Hin as [<-|Hin].
  - exists b. split; [left; reflexivity | exact Hab].
  - destruct (IH Hin) as (y & Hy & Hxy). exists y. split; [right|]; auto.
Qed.

(** X13: the proof gate passes on a built transaction exactly when the coin
    of every spent note, recomputed under the spender's secret, is a
    member of the coin set given with it: the builder does not check
    membership, the verifier does. *)
Theorem build_proof_gate_iff (self : TransactionBuilder) (rng : Rng) :
  ec_order ec <> 0 ->
  b_outputs self <> [] ->
  exists tx rng',
    build ec crypto self rng = (Return tx, rng')
    /\ (Transaction_check_proofs ec crypto tx = true
        <-> Forall (fun s => In (note_coin ec crypto (is_secret s) (is_note s))
                                (is_all_coins s))
                   (b_inputs self)).
Proof.
  intros Hq Hne.
  destruct (build_spec Rng Sig ec crypto self rng Hq Hne)
    as (tx & rng' & Hb & _ & HFi & HFo & _).
  exists tx, rng'. split; [exact Hb|]. split.
  - intro Hp. apply check_proofs_iff in Hp. destruct Hp as [Hi _].
    eapply Forall2_transfer_back; [| exact HFi | exact Hi].
    intros s i [[Hbp _] _] [Hin _]. rewrite Hbp in Hin. exact Hin.
  - intro Hcoins. exact (check_proofs_built _ _ _ _ _ _ _ _ HFi HFo Hcoins).
Qed.

Hypothesis laws : CommitLaws ec crypto.

(** X14: the value gate on a built transaction only sees the value excess:
    it passes exactly when the commitment to (input values minus output
    values) under the blind 0 is the identity. *)
Theorem build_value_gate (self : TransactionBuilder) (rng : Rng) :
  b_outputs self <> [] ->
  exists tx rng',
    build ec crypto self rng = (Return tx, rng')
    /\ Transaction_check_value_commits ec crypto tx
       = point_eqb
           (pedersen_encrypt crypto
              (sum (map cs_value (b_clear_inputs self))
               + sum (map (fun s => n_value (is_note s)) (b_inputs self))
               - sum (map os_value (b_outputs self))) 0 ec)
           (0, 1, 0).
Proof.
  intro Hne.
  destruct (build_spec Rng Sig ec crypto self rng
              (order_nonzero _ _ laws) Hne)
    as (tx & rng' & Hb & HFc & HFi & HFo & Hbl).
  exists tx, rng'. split; [exact Hb|].
  unfold Transaction_check_value_commits. cbv zeta.
  rewrite <- (commit_zero _ _ laws) at 1.
  rewrite (fold_commits_add Rng Sig ec crypto laws
             (fun c => pedersen_encrypt crypto (ci_value c)
                                        (ci_value_blind c) ec)
             ci_value ci_value_blind)
    by (apply Forall_forall; reflexivity).
  rewrite (fold_commits_add Rng Sig ec crypto laws
             (fun i => br_value_commit (ti_revealed i))
             (fun i => bp_value (ti_burn_proof i))
             (fun i => bp_value_blind (ti_burn_proof i))).
  2:{ eapply (Forall2_transfer _ (fun _ => True)); [| exact HFi |].
      - intros s i [[_ ->] _] _. reflexivity.
      - apply Forall_forall. trivial. }
  rewrite (fold_commits_sub Rng Sig ec crypto laws
             (fun o => mr_value_commit (to_revealed o))
             (fun o => mp_value (to_mint_proof o))
             (fun o => n_value_blind (to_enc_note o))).
  2:{ eapply (Forall2_transfer _ (fun _ => True)); [| exact HFo |].
      - intros s o (vb & serial & cb & Hmp & -> & Hn) _.
        rewrite mint_revealed_value_commit, Hmp, Hn. reflexivity.
      - apply Forall_forall. trivial. }
  fold (output_value_blinds (tx_outputs tx)). rewrite Hbl.
  rewrite <- (Forall2_map_eq _ cs_value ci_value _ _
                (fun s c (H : clear_signed ec crypto _ _ s c) =>
                   eq_sym (proj1 (proj1 H))) HFc).
  rewrite <- (Forall2_map_eq _ (fun s => n_value (is_note s))
                (fun i => bp_value (ti_burn_proof i)) _ _
                (fun s i (H : input_signed ec crypto _ _ s i) =>
                   eq_sym (f_equal bp_value (proj1 (proj1 H)))) HFi).
  rewrite <- (Forall2_map_eq _ (fun s => n_value_blind (is_note s))
                (fun i => bp_value_blind (ti_burn_proof i)) _ _
                (fun s i (H : input_signed ec crypto _ _ s i) =>
                   eq_sym (f_equal bp_value_blind (proj1 (proj1 H)))) HFi).
  assert (Hov : map os_value (b_outputs self)
                = map (fun o => mp_value (to_mint_proof o)) (tx_outputs tx)).
  { eapply Forall2_map_eq; [|exact HFo].
    intros s o (vb & serial & cb & Hmp & _ & _). now rewrite Hmp. }
  rewrite <- Hov. f_equal.
  rewrite <- (commit_blind_mod _ _ laws).
  unfold remainder_blind. rewrite sum_app, sum_cons.
  change (sum []) with 0.
  match goal with
  | |- pedersen_encrypt _ _ (?x mod _) _ = _ =>
      match x with
      | context [(?t - ?e) mod _] =>
          replace x with (t - (e + (t - e) mod ec_order ec)) by lia
      end
  end.
  rewrite (remainder_closes Rng Sig ec crypto laws). f_equal; lia.
Qed.

(** X15: mixing token ids is caught by the token gate: when the values
    balance and the spent coins are members, but the token id of some spec
    commits, under the sampled token blind, to another point than the
    token id of the first output, [verify] returns
    [(False, "token ID mismatch")]. *)
Theorem build_mixed_tokens_rejected (self : TransactionBuilder) (rng : Rng)
    (output0 : OutputSpec) (others : list OutputSpec) :
  b_outputs self = output0 :: others ->
  Forall (fun s => In (note_coin ec crypto (is_secret s) (is_note s))
                      (is_all_coins s))
         (b_inputs self) ->
  sum (map cs_value (b_clear_inputs self))
  + sum (map (fun s => n_value (is_note s)) (b_inputs self))
  = sum (map os_value (b_outputs self)) ->
  Exists (fun t =>
            pedersen_encrypt crypto t (fst (ec_random_scalar ec rng)) ec
            <> pedersen_encrypt crypto (os_token_id output0)
                 (fst (ec_random_scalar ec rng)) ec)
         (map cs_token_id (b_clear_inputs self)
          ++ map (fun s => n_token_id (is_note s)) (b_inputs self)
          ++ map os_token_id (b_outputs self)) ->
  exists tx rng',
    build ec crypto self rng = (Return tx, rng')
    /\ Transaction_verify ec crypto tx
       = RetTuple false (Some "token ID mismatch"%string).
Proof.
  intros Ho Hcoins Hval Hmix.
  assert (Hne : b_outputs self <> []) by (rewrite Ho; discriminate).
  destruct (build_spec Rng Sig ec crypto self rng
              (order_nonzero _ _ laws) Hne)
    as (tx & rng' & Hb & HFc & HFi & HFo & Hbl).
  exists tx, rng'. split; [exact Hb|].
  set (tb := fst (ec_random_scalar ec rng)) in *.
  apply verify_gate_token.
  - exact (check_value_commits_built _ _ _ _ laws _ _ _ _ _
             HFc HFi HFo Hbl Hval).
  - exact (check_proofs_built _ _ _ _ _ _ _ _ HFi HFo Hcoins).
  - destruct (Transaction_verify_token_commitments ec crypto tx)
      as [[|]|e] eqn:Et; [exfalso | reflexivity | exfalso].
    + apply verify_token_commitments_iff in Et.
      destruct Et as (o0 & rest & Eo & Hc & Hi & Hout).
      assert (H0 : mr_token_commit (to_revealed o0)
                   = pedersen_encrypt crypto (os_token_id output0) tb ec).
      { rewrite Ho, Eo in HFo. inversion HFo; subst.
        eapply output_token_commit; eassumption. }
      rewrite H0 in Hc, Hi, Hout.
      rewrite Forall_forall in Hc, Hi, Hout.
      apply Exists_exists in Hmix. destruct Hmix as (t & Hin & Ht).
      apply Ht. clear Ht.
      rewrite !in_app_iff, !in_map_iff in Hin.
      destruct Hin as [(s & <- & Hs) | [(s & <- & Hs) | (s & <- & Hs)]].
      * destruct (Forall2_In_l _ _ _ _ HFc Hs) as (c & Hin & Hsc).
        rewrite <- (clear_token_commit _ _ _ _ _ _ _ _ Hsc).
        exact (Hc c Hin).
      * destruct (Forall2_In_l _ _ _ _ HFi Hs) as (i & Hin & Hsi).
        rewrite <- (input_token_commit _ _ _ _ _ _ _ _ Hsi).
        exact (Hi i Hin).
      * destruct (Forall2_In_l _ _ _ _ HFo Hs) as (o & Hin & Hso).
        rewrite <- (output_token_commit _ _ _ _ _ _ _ Hso).
        exact (Hout o Hin).
    + apply verify_token_commitments_raises in Et. destruct Et as [_ Eo].
      rewrite Ho, Eo in HFo. inversion HFo.
Qed.

End Verdict.

Section Signed.

Variables (Rng Sig : Type) (ec : Curve Rng) (crypto : Crypto Rng Sig).
Hypothesis signature_law : SignatureLaw ec crypto.

(** X16: every member of a built transaction carries a signature that
    verifies over the encoding under the member's public key, whatever the
    values, tokens and coin sets are; on a built transaction [verify]
    therefore always returns a pair, never the bare [False] and never an
    exception. *)
Theorem build_signatures_verify (self : TransactionBuilder) (rng : Rng) :
  ec_order ec <> 0 ->
  b_outputs self <> [] ->
  exists tx rng',
    build ec crypto self rng = (Return tx, rng')
    /\ Forall (fun c => exists s,
                 ci_signature c = Some s
                 /\ verify crypto (partial_encode tx) s
                      (ci_signature_public c) ec = true)
              (tx_clear_inputs tx)
    /\ Forall (fun i => exists s,
                 ti_signature i = Some s
                 /\ verify crypto (partial_encode tx) s
                      (br_signature_public (ti_revealed i)) ec = true)
              (tx_inputs tx)
    /\ exists ok reason, Transaction_verify ec crypto tx = RetTuple ok reason.
Proof.
  intros Hq Hne.
  destruct (build_spec Rng Sig ec crypto self rng Hq Hne)
    as (tx & rng' & Hb & HFc & HFi & HFo & _).
  pose proof (verify_clear_signatures_built _ _ _ _ signature_law _ _ _ _ HFc)
    as Hc.
  pose proof (verify_input_signatures_built _ _ _ _ signature_law _ _ _ _ HFi)
    as Hi.
  exists tx, rng'. split; [exact Hb|].
  split; [now apply verify_clear_signatures_iff|].
  split; [now apply verify_input_signatures_iff|].
  unfold Transaction_verify.
  destruct (Transaction_check_value_commits ec crypto tx); cbn [negb];
    [|eauto].
  destruct (Transaction_check_proofs ec crypto tx); cbn [negb]; [|eauto].
  destruct (Transaction_verify_token_commitments ec crypto tx)
    as [[|]|e] eqn:Et.
  - cbv zeta. rewrite Hc, Hi. eauto.
  - eauto.
  - apply verify_token_commitments_raises in Et. destruct Et as [_ Eo].
    rewrite Eo in HFo. inversion HFo; subst. congruence.
Qed.

End Signed.

(** ** The further properties on sample transactions *)

Lemma tampered_revealed_rejected_witness :
  (Exists (fun i => ti_revealed i
                    <> BurnProof_get_revealed Toy.curve Toy.crypto
                         (ti_burn_proof i))
          (tx_inputs tampered)
   \/ Exists (fun o => to_revealed o
                       <> MintProof_get_revealed Toy.curve Toy.crypto
                            (to_mint_proof o))
             (tx_outputs tampered))
  /\ Transaction_check_value_commits Toy.curve Toy.crypto tampered = true
  /\ Transaction_verify Toy.curve Toy.crypto tampered
     = RetTuple false (Some "proofs failed to verify"%string).
Proof.
  assert (Ht : Exists (fun i => ti_revealed i
                                <> BurnProof_get_revealed Toy.curve
                                     Toy.crypto (ti_burn_proof i))
                      (tx_inputs tampered)
               \/ Exists (fun o => to_revealed o
                                   <> MintProof_get_revealed Toy.curve
                                        Toy.crypto (to_mint_proof o))
                         (tx_outputs tampered)).
  { right. apply Exists_exists. eexists.
    split; [cbv; left; reflexivity | vm_compute; discriminate]. }
  assert (Hval : Transaction_check_value_commits Toy.curve Toy.crypto
                   tampered = true) by (vm_compute; reflexivity).
  split; [exact Ht|]. split; [exact Hval|].
  exact (tampered_revealed_rejected Z Toy.Signature Toy.curve Toy.crypto
           tampered Ht Hval).
Defined.

Lemma build_returns_iff_outputs_witness :
  ec_order Toy.curve <> 0
  /\ ((exists tx rng',
         build Toy.curve Toy.crypto TransactionBuilder_init 42
         = (Return tx, rng'))
      <-> b_outputs TransactionBuilder_init <> [])
  /\ (b_outputs TransactionBuilder_init = [] ->
      build Toy.curve Toy.crypto TransactionBuilder_init 42
      = (Raise AssertionError,
         rng_at_outputs Toy.curve TransactionBuilder_init 42)).
Proof.
  assert (Hq : ec_order Toy.curve <> 0) by (vm_compute; discriminate).
  split; [exact Hq|].
  exact (build_returns_iff_outputs Z Toy.Signature Toy.curve Toy.crypto
           TransactionBuilder_init 42 Hq).
Defined.

Lemma compute_remainder_blind_closes_witness :
  0 < ec_order Toy.curve
  /\ exists r,
       compute_remainder_blind Toy.curve
         (tx_clear_inputs (built clear_to_shielded)) [9; 4] [11]
       = Return r
       /\ 0 <= r < ec_order Toy.curve
       /\ (sum (map ci_value_blind
                    (tx_clear_inputs (built clear_to_shielded)))
           + sum [9; 4] - sum ([11] ++ [r])) mod ec_order Toy.curve = 0.
Proof.
  assert (Hq : 0 < ec_order Toy.curve) by reflexivity.
  split; [exact Hq|].
  exact (compute_remainder_blind_closes Z Toy.Signature Toy.curve
           (tx_clear_inputs (built clear_to_shielded)) [9; 4] [11] Hq).
Defined.

Ltac toy_build_hyps :=
  assert (Hq : ec_order Toy.curve <> 0) by (vm_compute; discriminate);
  assert (Hne : b_outputs shielded_split <> [])
    by (vm_compute; discriminate);
  split; [exact Hq|]; split; [exact Hne|].

Lemma build_blinds_balance_witness :
  ec_order Toy.curve <> 0
  /\ b_outputs shielded_split <> []
  /\ exists tx rng',
       build Toy.curve Toy.crypto shielded_split 42 = (Return tx, rng')
       /\ (sum (map ci_value_blind (tx_clear_inputs tx))
           + sum (map (fun s => n_value_blind (is_note s))
                      (b_inputs shielded_split))
           - sum (output_value_blinds (tx_outputs tx)))
          mod ec_order Toy.curve = 0.
Proof.
  toy_build_hyps.
  exact (build_blinds_balance Z Toy.Signature Toy.curve Toy.crypto
           shielded_split 42 Hq Hne).
Defined.

Lemma build_keeps_specs_witness :
  ec_order Toy.curve <> 0
  /\ b_outputs shielded_split <> []
  /\ exists tx rng',
       build Toy.curve Toy.crypto shielded_split 42 = (Return tx, rng')
       /\ map (fun c => (ci_value c, ci_token_id c, ci_signature_public c))
              (tx_clear_inputs tx)
          = map (fun s => (cs_value s, cs_token_id s,
                           ec_multiply Toy.curve (cs_signature_secret s)
                                       (ec_G Toy.curve)))
                (b_clear_inputs shielded_split)
       /\ map (fun i => br_all_coins (ti_revealed i)) (tx_inputs tx)
          = map is_all_coins (b_inputs shielded_split)
       /\ map (fun o => (n_value (to_enc_note o), n_token_id (to_enc_note o),
                         n_depends (to_enc_note o), n_attrs (to_enc_note o),
                         mp_public (to_mint_proof o)))
              (tx_outputs tx)
          = map (fun s => (os_value s, os_token_id s, os_depends s,
                           os_attrs s, os_public s))
                (b_outputs shielded_split).
Proof.
  toy_build_hyps.
  exact (build_keeps_specs Z Toy.Signature Toy.curve Toy.crypto
           shielded_split 42 Hq Hne).
Defined.

Lemma build_reveals_note_commitment_witness :
  ec_order Toy.curve <> 0
  /\ b_outputs shielded_split <> []
  /\ exists tx rng',
       build Toy.curve Toy.crypto shielded_split 42 = (Return tx, rng')
       /\ map (fun i => (br_nullifier (ti_revealed i),
                         br_value_commit (ti_revealed i)))
              (tx_inputs tx)
          = map (fun s =>
                   (ff_hash Toy.crypto (is_secret s) [n_serial (is_note s)],
                    pedersen_encrypt Toy.crypto (n_value (is_note s))
                      (n_value_blind (is_note s)) Toy.curve))
                (b_inputs shielded_split).
Proof.
  toy_build_hyps.
  exact (build_reveals_note_commitment Z Toy.Signature Toy.curve Toy.crypto
           shielded_split 42 Hq Hne).
Defined.

Lemma build_notes_open_outputs_witness :
  ec_order Toy.curve <> 0
  /\ b_outputs shielded_split <> []
  /\ exists tx rng',
       build Toy.curve Toy.crypto shielded_split 42 = (Return tx, rng')
       /\ Forall2
            (fun spec o =>
               let note := to_enc_note o in
               let '(public0, public1, _) := os_public spec in
               mr_coin (to_revealed o)
               = ff_hash Toy.crypto (ec_p Toy.curve)
                   [public0; public1; n_value note; n_token_id note;
                    n_serial note; n_coin_blind note; n_depends note;
                    n_attrs note]
               /\ mr_value_commit (to_revealed o)
                  = pedersen_encrypt Toy.crypto (n_value note)
                      (n_value_blind note) Toy.curve
               /\ mr_token_commit (to_revealed o)
                  = pedersen_encrypt Toy.crypto (n_token_id note)
                      (n_token_blind note) Toy.curve)
            (b_outputs shielded_split) (tx_outputs tx).
Proof.
  toy_build_hyps.
  exact (build_notes_open_outputs Z Toy.Signature Toy.curve Toy.crypto
           shielded_split 42 Hq Hne).
Defined.

Lemma build_proof_gate_iff_witness :
  ec_order Toy.curve <> 0
  /\ b_outputs shielded_split <> []
  /\ exists tx rng',
       build Toy.curve Toy.crypto shielded_split 42 = (Return tx, rng')
       /\ (Transaction_check_proofs Toy.curve Toy.crypto tx = true
           <-> Forall (fun s => In (note_coin Toy.curve Toy.crypto
                                      (is_secret s) (is_note s))
                                   (is_all_coins s))
                      (b_inputs shielded_split)).
Proof.
  toy_build_hyps.
  exact (build_proof_gate_iff Z Toy.Signature Toy.curve Toy.crypto
           shielded_split 42 Hq Hne).
Defined.

Lemma build_value_gate_witness :
  CommitLaws Toy.curve Toy.crypto
  /\ b_outputs imbalanced <> []
  /\ exists tx rng',
       build Toy.curve Toy.crypto imbalanced 42 = (Return tx, rng')
       /\ Transaction_check_value_commits Toy.curve Toy.crypto tx
          = point_eqb
              (pedersen_encrypt Toy.crypto
                 (sum (map cs_value (b_clear_inputs imbalanced))
                  + sum (map (fun s => n_value (is_note s))
                             (b_inputs imbalanced))
                  - sum (map os_value (b_outputs imbalanced))) 0 Toy.curve)
              (0, 1, 0).
Proof.
  assert (Hne : b_outputs imbalanced <> []) by (vm_compute; discriminate).
  split; [exact ToyLaws.commit_laws|]. split; [exact Hne|].
  exact (build_value_gate Z Toy.Signature Toy.curve Toy.crypto
           ToyLaws.commit_laws imbalanced 42 Hne).
Defined.

Lemma build_mixed_tokens_rejected_witness :
  CommitLaws Toy.curve Toy.crypto
  /\ sum (map cs_value (b_clear_inputs mixed_tokens))
     + sum (map (fun s => n_value (is_note s)) (b_inputs mixed_tokens))
     = sum (map os_value (b_outputs mixed_tokens))
  /\ Exists (fun t =>
               pedersen_encrypt Toy.crypto t
                 (fst (ec_random_scalar Toy.curve 42)) Toy.curve
               <> pedersen_encrypt Toy.crypto 3
                    (fst (ec_random_scalar Toy.curve 42)) Toy.curve)
            (map cs_token_id (b_clear_inputs mixed_tokens)
             ++ map (fun s => n_token_id (is_note s)) (b_inputs mixed_tokens)
             ++ map os_token_id (b_outputs mixed_tokens))
  /\ exists tx rng',
       build Toy.curve Toy.crypto mixed_tokens 42 = (Return tx, rng')
       /\ Transaction_verify Toy.curve Toy.crypto tx
          = RetTuple false (Some "token ID mismatch"%string).
Proof.
  assert (Hval : sum (map cs_value (b_clear_inputs mixed_tokens))
                 + sum (map (fun s => n_value (is_note s))
                            (b_inputs mixed_tokens))
                 = sum (map os_value (b_outputs mixed_tokens)))
    by reflexivity.
  assert (Hmix : Exists (fun t =>
                    pedersen_encrypt Toy.crypto t
                      (fst (ec_random_scalar Toy.curve 42)) Toy.curve
                    <> pedersen_encrypt Toy.crypto 3
                         (fst (ec_random_scalar Toy.curve 42)) Toy.curve)
                   (map cs_token_id (b_clear_inputs mixed_tokens)
                    ++ map (fun s => n_token_id (is_note s))
                           (b_inputs mixed_tokens)
                    ++ map os_token_id (b_outputs mixed_tokens))).
  { apply Exists_exists. exists 4.
    split; [vm_compute; auto | vm_compute; discriminate]. }
  split; [exact ToyLaws.commit_laws|]. split; [exact Hval|].
  split; [exact Hmix|].
  exact (build_mixed_tokens_rejected Z Toy.Signature Toy.curve Toy.crypto
           ToyLaws.commit_laws mixed_tokens 42
           {| os_value := 15; os_token_id := 3; os_public := recipient_a;
              os_depends := 0; os_attrs := 0 |} []
           eq_refl (Forall_nil _) Hval Hmix).
Defined.

Lemma build_signatures_verify_witness :
  SignatureLaw Toy.curve Toy.crypto
  /\ ec_order Toy.curve <> 0
  /\ b_outputs imbalanced <> []
  /\ exists tx rng',
       build Toy.curve Toy.crypto imbalanced 42 = (Return tx, rng')
       /\ Forall (fun c => exists s,
                    ci_signature c = Some s
                    /\ verify Toy.crypto (partial_encode tx) s
                         (ci_signature_public c) Toy.curve = true)
                 (tx_clear_inputs tx)
       /\ Forall (fun i => exists s,
                    ti_signature i = Some s
                    /\ verify Toy.crypto (partial_encode tx) s
                         (br_signature_public (ti_revealed i)) Toy.curve
                       = true)
                 (tx_inputs tx)
       /\ exists ok reason,
            Transaction_verify Toy.curve Toy.crypto tx = RetTuple ok reason.
Proof.
  assert (Hq : ec_order Toy.curve <> 0) by (vm_compute; discriminate).
  assert (Hne : b_outputs imbalanced <> []) by (vm_compute; discriminate).
  split; [exact ToyLaws.signature_law|]. split; [exact Hq|].
  split; [exact Hne|].
  exact (build_signatures_verify Z Toy.Signature Toy.curve Toy.crypto
           ToyLaws.signature_law imbalanced 42 Hq Hne).
Defined.
